(** * Automated Data Insight Generator (streamlit_app.py)

    A shallow embedding of the Streamlit script: the Gemini call helper, the
    five prompt stages, the report assembly and the condition that guards
    them, with the properties of its specification stated over that
    embedding.  The widgets of lines 52, 53 and 58 leave no event: what they
    return is the record [Inputs].

    The script talks to four things it does not define: the HTTP endpoint,
    pandas, FPDF and the Streamlit widgets.  They are gathered in the records
    [World] and [Inputs]; every theorem quantifies over them.  What the
    script shows on screen or sends out is recorded, in order, in a log of
    events. *)

From Stdlib Require Import ZArith Lia Ascii String Strings.Byte.
From stdpp Require Import base strings gmap list pretty.

Local Open Scope Z_scope.

(** ** Python values *)

(** The values [response.json()] can hold, which are also the values a
    DataFrame cell or a stage result can be.  A float is kept as its IEEE-754
    bit pattern; a [dict] decoded from JSON has string keys. *)
#[local] Unset Elimination Schemes.
Inductive pyval : Type :=
  | PNone
  | PBool (b : bool)
  | PInt (n : Z)
  | PFloat (bits : Z)
  | PStr (s : string)
  | PList (l : list pyval)
  | PDict (d : gmap string pyval).
#[local] Set Elimination Schemes.

(** The exceptions that can leave the script. *)
Inductive pyexc : Type :=
  | KeyError
  | IndexError
  | TypeError
  | JSONDecodeError
  | RequestException
  | ParserError
  | FPDFException.

Inductive result (A : Type) : Type :=
  | Val (a : A)
  | Raise (e : pyexc).
Arguments Val {A} a.
Arguments Raise {A} e.

(** ** Strings *)

Definition LF : string := String "010"%char EmptyString.
Definition DQUOTE : ascii := "034"%char.

(** [s.split(c)] for a one-character separator: never an empty list. *)
Fixpoint split (c : ascii) (s : string) : list string :=
  match s with
  | EmptyString => [EmptyString]
  | String a s' =>
      if Ascii.eqb a c then EmptyString :: split c s'
      else match split c s' with
           | h :: t => String a h :: t
           | [] => [String a EmptyString]
           end
  end.

(** [sep.join(l)] on a list of [str]. *)
Fixpoint join (sep : string) (l : list string) : string :=
  match l with
  | [] => EmptyString
  | [x] => x
  | x :: l' => x +:+ sep +:+ join sep l'
  end.

(** [x in s] for strings, as a proposition and as a test. *)
Definition contains (s x : string) : Prop :=
  exists pre post : string, s = pre +:+ x +:+ post.

Fixpoint containsb (s x : string) : bool :=
  String.prefix x s ||
  match s with
  | EmptyString => false
  | String _ s' => containsb s' x
  end.

Definition str_truthy (s : string) : bool :=
  match s with
  | EmptyString => false
  | String _ _ => true
  end.

(** ** pandas *)

(** A loaded table: the column labels and the rows, top to bottom. *)
Record DataFrame : Type := {
  columns : list pyval;
  rows : list (list pyval)
}.

(** [df.head(n)] for [n >= 0]: a new frame with the first [n] rows. *)
Definition head (n : nat) (df : DataFrame) : DataFrame :=
  {| columns := columns df; rows := firstn n (rows df) |}.

(** ** The outside world *)

Record Request : Type := {
  url : string;
  headers : gmap string string;
  json_data : pyval
}.

(** [response.json()] is [None] when the body does not decode. *)
Record Response : Type := {
  status_code : Z;
  text : string;
  json : option pyval
}.

Record UploadedFile : Type := {
  name : string;
  content : list byte
}.

Inductive os : Type :=
  | Posix
  | Windows.

Record World : Type := {
  (** [requests.post]: the answer to the n-th request of the run, [None]
      when the request itself raises *)
  post : nat -> Request -> option Response;
  (** [pd.read_csv] and [pd.read_excel], [None] when they raise *)
  read_csv : UploadedFile -> option DataFrame;
  read_excel : UploadedFile -> option DataFrame;
  (** [str()] of the values whose text the script never decides itself:
      floats, lists and dicts *)
  py_repr : pyval -> string;
  (** the system the script runs on *)
  platform : os;
  (** FPDF: the document made from the texts given to [multi_cell], in
      order; [None] when the engine raises *)
  fpdf : list string -> option (list byte)
}.

(** What the three widgets return in this run of the script. *)
Record Inputs : Type := {
  api_key : string;
  uploaded_file : option UploadedFile;
  button : bool
}.

Inductive event : Type :=
  | Post (q : Request)
  | Sleep (secs : Z)
  | Title (s : string)
  | Write (v : pyval)
  | Markdown (s : string)
  | Caption (s : string)
  | Info (s : string)
  | Success (s : string)
  | Warning (s : string)
  | Error (s : string)
  | Text (s : string)
  | Dataframe (df : DataFrame)
  | DownloadButton (label : string) (data : list byte) (file_name mime : string)
  | Expander (label : string).

(** ** The monad of the script: a log, a request counter, exceptions *)

Record State : Type := {
  log : list event;
  calls : nat
}.

Definition M (A : Type) : Type := State -> result A * State.

Definition ret {A} (a : A) : M A := fun s => (Val a, s).

Definition bind {A B} (m : M A) (k : A -> M B) : M B :=
  fun s =>
    match m s with
    | (Val a, s') => k a s'
    | (Raise e, s') => (Raise e, s')
    end.

#[global] Instance M_ret : MRet M := @ret.
#[global] Instance M_bind : MBind M := fun A B k m => bind m k.

Definition lift {A} (r : result A) : M A := fun s => (r, s).

Definition emit (e : event) : M unit :=
  fun s => (Val tt, {| log := log s ++ [e]; calls := calls s |}).

Definition requests_post (w : World) (q : Request) : M Response :=
  fun s =>
    let s' := {| log := log s ++ [Post q]; calls := S (calls s) |} in
    match post w (calls s) q with
    | Some r => (Val r, s')
    | None => (Raise RequestException, s')
    end.

Definition init : State := {| log := []; calls := 0 |}.

(** [os.linesep], the line terminator [to_csv] uses by default. *)
Definition linesep (w : World) : string :=
  match platform w with
  | Posix => LF
  | Windows => String "013"%char LF
  end.

#[global] Instance result_ret : MRet result := @Val.
#[global] Instance result_bind : MBind result :=
  fun A B k r => match r with Val a => k a | Raise e => Raise e end.

(** ** Builtins *)

(** A double is NaN when its exponent is all ones and its fraction is not
    zero. *)
Definition float_is_nan (bits : Z) : bool :=
  Z.eqb (Z.land (Z.shiftr bits 52) 2047) 2047 &&
  negb (Z.eqb (Z.land bits (Z.ones 52)) 0).

(** [str(v)], which is what an f-string field [{v}] inserts. *)
Definition py_str (w : World) (v : pyval) : string :=
  match v with
  | PNone => "None"
  | PBool true => "True"
  | PBool false => "False"
  | PInt n => pretty n
  | PStr s => s
  | PFloat _ | PList _ | PDict _ => py_repr w v
  end.

(** [s + v] with a [str] on the left: only a [str] can be added. *)
Definition str_add (s : string) (v : pyval) : result string :=
  match v with
  | PStr t => Val (s +:+ t)
  | _ => Raise TypeError
  end.

(** [v[k]] for a string key [k]. *)
Definition getitem_key (v : pyval) (k : string) : result pyval :=
  match v with
  | PDict d =>
      match d !! k with
      | Some x => Val x
      | None => Raise KeyError
      end
  | _ => Raise TypeError
  end.

(** [v[0]]. *)
Definition getitem_0 (v : pyval) : result pyval :=
  match v with
  | PList (x :: _) => Val x
  | PList [] => Raise IndexError
  | PStr (String a _) => Val (PStr (String a EmptyString))
  | PStr EmptyString => Raise IndexError
  | PDict _ => Raise KeyError
  | _ => Raise TypeError
  end.

Fixpoint all_str (l : list pyval) : result (list string) :=
  match l with
  | [] => Val []
  | PStr s :: l' => ss ← all_str l'; Val (s :: ss)
  | _ :: _ => Raise TypeError
  end.

(** [sep.join(l)]: every item has to be a [str]. *)
Definition str_join (sep : string) (l : list pyval) : result string :=
  ss ← all_str l; Val (join sep ss).

(** ** [DataFrame.to_csv(index=False)] *)

(** pandas writes through [csv.writer] with minimal quoting: a field is
    quoted when it holds the delimiter, the quote character or a character
    of the line terminator, and a row made of one empty field is written as
    two quote characters. *)
Fixpoint str_exists (p : ascii -> bool) (s : string) : bool :=
  match s with
  | EmptyString => false
  | String a s' => p a || str_exists p s'
  end.

Definition csv_special (lt : string) (c : ascii) : bool :=
  Ascii.eqb c ","%char || Ascii.eqb c DQUOTE || str_exists (Ascii.eqb c) lt.

Fixpoint double_quotes (s : string) : string :=
  match s with
  | EmptyString => EmptyString
  | String a s' =>
      if Ascii.eqb a DQUOTE then String DQUOTE (String DQUOTE (double_quotes s'))
      else String a (double_quotes s')
  end.

Definition csv_field (lt : string) (s : string) : string :=
  if str_exists (csv_special lt) s
  then String DQUOTE (double_quotes s +:+ String DQUOTE EmptyString)
  else s.

Definition csv_line (lt : string) (fields : list string) : string :=
  match fields with
  | [EmptyString] => String DQUOTE (String DQUOTE EmptyString) +:+ lt
  | _ => join "," (csv_field lt <$> fields) +:+ lt
  end.

(** The text of a column label and of a cell: a missing value ([None], NaN)
    in a cell is written as nothing. *)
Definition label_text (w : World) (v : pyval) : string :=
  match v with
  | PNone => EmptyString
  | _ => py_str w v
  end.

Definition cell_text (w : World) (v : pyval) : string :=
  match v with
  | PNone => EmptyString
  | PFloat bits => if float_is_nan bits then EmptyString else py_repr w v
  | _ => py_str w v
  end.

Fixpoint concat_str (l : list string) : string :=
  match l with
  | [] => EmptyString
  | x :: l' => x +:+ concat_str l'
  end.

Definition to_csv (w : World) (df : DataFrame) : string :=
  csv_line (linesep w) (label_text w <$> columns df) +:+
  concat_str ((fun r => csv_line (linesep w) (cell_text w <$> r)) <$> rows df).

(** ** The script *)

Definition gemini_url : string :=
  "https://generativelanguage.googleapis.com/v1beta/models/gemini-pro:generateContent".

(** The request of [call_gemini_api] (lines 12-21). *)
Definition gemini_request (api_key prompt : string) : Request :=
  {| url := gemini_url;
     headers := {[ "Authorization" := "Bearer " +:+ api_key;
                   "Content-Type" := "application/json" ]};
     json_data :=
       PDict {[ "contents" :=
         PList [PDict {[ "parts" :=
           PList [PDict {[ "text" := PStr prompt ]}] ]}] ]} |}.

(** [res["candidates"][0]["content"]["parts"][0]["text"]] (line 25). *)
Definition first_text (res : pyval) : result pyval :=
  candidates ← getitem_key res "candidates";
  candidate ← getitem_0 candidates;
  content ← getitem_key candidate "content";
  parts ← getitem_key content "parts";
  part ← getitem_0 parts;
  getitem_key part "text".

Definition response_json (r : Response) : result pyval :=
  match json r with
  | Some v => Val v
  | None => Raise JSONDecodeError
  end.

(** Lines 11-28. *)
Definition call_gemini_api (w : World) (api_key prompt : string) : M pyval :=
  response ← requests_post w (gemini_request api_key prompt);
  if Z.eqb (status_code response) 200 then
    res ← lift (response_json response);
    lift (first_text res)
  else
    emit (Error ("Gemini API Error: " +:+ text response));;
    mret PNone.

(** Lines 31-32. *)
Definition progress_step (step_num : Z) (step_name : string) (total_steps : Z)
  : M unit :=
  emit (Info ("Step " +:+ pretty step_num +:+ "/" +:+ pretty total_steps +:+
              ": " +:+ step_name)).

(** Lines 35-44: one [multi_cell] per line of the report, then the buffer. *)
Definition create_pdf (w : World) (report_text : string) : M (list byte) :=
  match fpdf w (split "010"%char report_text) with
  | Some buffer => mret buffer
  | None => lift (Raise FPDFException)
  end.

(** Lines 60-64. *)
Definition read_file (w : World) (f : UploadedFile) : M DataFrame :=
  let file_ext := List.last (split "."%char (name f)) EmptyString in
  match (if String.eqb file_ext "csv" then read_csv w f else read_excel w f) with
  | Some df => mret df
  | None => lift (Raise ParserError)
  end.

(** The five prompts (lines 72, 81, 90, 99, 108). *)
Definition profile_prompt (w : World) (df : DataFrame) : result string :=
  let csv := to_csv w (head 2 df) in
  names ← str_join ", " (columns df);
  Val ("You are an expert data analyst. Here are the top 2 rows:" +:+ LF +:+
       csv +:+ LF +:+ LF +:+ "Column names: " +:+ names +:+ LF +:+ LF +:+
       "Profile this data and guess the domain/use-case. Return the profile, types, missing values, and business context.").

Definition cleaning_prompt (w : World) (profile_result : pyval) : string :=
  "Given this data profile:" +:+ LF +:+ py_str w profile_result +:+ LF +:+
  "Suggest cleaning steps and apply them. Return python code for cleaning and a summary of changes.".

Definition metrics_prompt : string :=
  "Based on the cleaned data and profile, identify the most important KPIs and metrics to track. Suggest feature engineering if any. Output metric definitions and a sample calculation.".

Definition analysis_prompt (w : World) (metrics_result : pyval) : string :=
  "Given the data and metrics:" +:+ LF +:+ py_str w metrics_result +:+ LF +:+
  "Perform exploratory data analysis and highlight hidden patterns, outliers, or unusual trends.".

Definition insights_prompt : string :=
  "Summarize actionable business insights and recommendations from the previous analysis. Focus on recent performance, possible optimizations, and next steps.".

(** The five stages (lines 69-113).  Each takes the step counter and gives
    back its result with the counter after [step += 1]. *)
Definition stage1 (w : World) (api_key : string) (df : DataFrame)
    (step total_steps : Z) : M (pyval * Z) :=
  progress_step step "Profiling Data..." total_steps;;
  emit (Dataframe (head 10 df));;
  profile_prompt ← lift (profile_prompt w df);
  profile_result ← call_gemini_api w api_key profile_prompt;
  emit (Markdown "**Profile Result:**");;
  emit (Write profile_result);;
  emit (Sleep 1);;
  mret (profile_result, step + 1).

Definition stage2 (w : World) (api_key : string) (profile_result : pyval)
    (step total_steps : Z) : M (pyval * Z) :=
  progress_step step "Data Cleaning..." total_steps;;
  cleaning_result ← call_gemini_api w api_key (cleaning_prompt w profile_result);
  emit (Markdown "**Cleaning Steps:**");;
  emit (Write cleaning_result);;
  emit (Sleep 1);;
  mret (cleaning_result, step + 1).

Definition stage3 (w : World) (api_key : string)
    (step total_steps : Z) : M (pyval * Z) :=
  progress_step step "Calculating Metrics and Engineering Features..." total_steps;;
  metrics_result ← call_gemini_api w api_key metrics_prompt;
  emit (Markdown "**Key Metrics & Features:**");;
  emit (Write metrics_result);;
  emit (Sleep 1);;
  mret (metrics_result, step + 1).

Definition stage4 (w : World) (api_key : string) (metrics_result : pyval)
    (step total_steps : Z) : M (pyval * Z) :=
  progress_step step "Finding Hidden Patterns & Analysis..." total_steps;;
  analysis_result ← call_gemini_api w api_key (analysis_prompt w metrics_result);
  emit (Markdown "**Hidden Patterns:**");;
  emit (Write analysis_result);;
  emit (Sleep 1);;
  mret (analysis_result, step + 1).

Definition stage5 (w : World) (api_key : string)
    (step total_steps : Z) : M (pyval * Z) :=
  progress_step step "Generating Insights & Recommendations..." total_steps;;
  insights_result ← call_gemini_api w api_key insights_prompt;
  emit (Markdown "**Actionable Insights:**");;
  emit (Write insights_result);;
  emit (Sleep 1);;
  mret (insights_result, step + 1).

(** The results of the five stages, in order. *)
Record Results : Type := {
  profile_result : pyval;
  cleaning_result : pyval;
  metrics_result : pyval;
  analysis_result : pyval;
  insights_result : pyval
}.

(** Lines 66-113: the stages one after the other. *)
Definition stages (w : World) (api_key : string) (df : DataFrame)
    (total_steps : Z) : M (Results * Z) :=
  let step := 1 in
  '(profile_result, step) ← stage1 w api_key df step total_steps;
  '(cleaning_result, step) ← stage2 w api_key profile_result step total_steps;
  '(metrics_result, step) ← stage3 w api_key step total_steps;
  '(analysis_result, step) ← stage4 w api_key metrics_result step total_steps;
  '(insights_result, step) ← stage5 w api_key step total_steps;
  mret ({| profile_result := profile_result;
           cleaning_result := cleaning_result;
           metrics_result := metrics_result;
           analysis_result := analysis_result;
           insights_result := insights_result |}, step).

(** Lines 117-123: [+] associates to the left, so the first operand that is
    not a [str] raises. *)
Definition full_report (r : Results) : result string :=
  t ← str_add ("DATA PROFILE:" +:+ LF) (profile_result r);
  t ← str_add ((t +:+ (LF +:+ LF)) +:+ ("DATA CLEANING STEPS:" +:+ LF))
        (cleaning_result r);
  t ← str_add ((t +:+ (LF +:+ LF)) +:+ ("KEY METRICS & FEATURES:" +:+ LF))
        (metrics_result r);
  t ← str_add ((t +:+ (LF +:+ LF)) +:+ ("HIDDEN PATTERNS & ANALYSIS:" +:+ LF))
        (analysis_result r);
  t ← str_add ((t +:+ (LF +:+ LF)) +:+
               ("ACTIONABLE INSIGHTS & RECOMMENDATIONS:" +:+ LF))
        (insights_result r);
  Val (t +:+ (LF +:+ LF)).

(** Lines 115-135. *)
Definition report_step (w : World) (r : Results) (step total_steps : Z)
  : M unit :=
  progress_step step "Generating PDF Report..." total_steps;;
  full_report ← lift (full_report r);
  pdf_buffer ← create_pdf w full_report;
  emit (Success "Analysis Complete! Download your report below:");;
  emit (DownloadButton "Download PDF Report" pdf_buffer
          "data_analysis_report.pdf" "application/pdf");;
  emit (Expander "Full Report");;
  emit (Text full_report).

(** Lines 59-135: what the button starts. *)
Definition generate_report (w : World) (api_key : string) (f : UploadedFile)
  : M unit :=
  df ← read_file w f;
  let total_steps := 6 in
  '(r, step) ← stages w api_key df total_steps;
  report_step w r step total_steps.

(** The whole script, top to bottom (lines 46-140). *)
Definition main (w : World) (i : Inputs) : M unit :=
  emit (Title "🔎 AI-Powered Data Insights (Gemini + Streamlit)");;
  emit (Write (PStr (LF +:+
    "Upload your Gemini API key and a dataset (CSV or Excel). The app will analyze, clean, and extract actionable insights automatically." +:+
    LF)));;
  match str_truthy (api_key i), uploaded_file i with
  | true, Some f =>
      emit (Success "API key and data file received!");;
      if button i then generate_report w (api_key i) f else mret tt
  | _, _ =>
      emit (Warning "Please enter your Gemini API key and upload a dataset to proceed.")
  end;;
  emit (Markdown "---");;
  emit (Caption "Created with ❤️ using Streamlit and Google Gemini").

Definition run (w : World) (i : Inputs) : result unit * State :=
  main w i init.

(** ** Vocabulary of the specification *)

(** The answer the world gives to the request the script sends next. *)
Definition answered (w : World) (s : State) (api_key prompt : string)
    (a : Response) : Prop :=
  post w (calls s) (gemini_request api_key prompt) = Some a.

(** The decoded body holds [v] as the first text part of its first
    candidate. *)
Definition has_first_text (res v : pyval) : Prop :=
  exists (d dc dn dp : gmap string pyval) (cs ps : list pyval),
    res = PDict d /\
    d !! "candidates" = Some (PList (PDict dc :: cs)) /\
    dc !! "content" = Some (PDict dn) /\
    dn !! "parts" = Some (PList (PDict dp :: ps)) /\
    dp !! "text" = Some v.

(** A world in which no request raises and every answer with status 200
    carries a text part. *)
Definition graceful (w : World) : Prop :=
  forall (n : nat) (q : Request),
    exists a : Response,
      post w n q = Some a /\
      (status_code a = 200 ->
       exists j v : pyval, json a = Some j /\ has_first_text j v).

(** The requests sent and the values shown with [st.write], in order. *)
Definition posts (l : list event) : list Request :=
  omap (fun e => match e with Post q => Some q | _ => None end) l.

Definition writes (l : list event) : list pyval :=
  omap (fun e => match e with Write v => Some v | _ => None end) l.

(** The events only the pipeline produces: a request, a progress message,
    the preview, an error, a pause, the download and the report panel. *)
Definition pipeline_event (e : event) : bool :=
  match e with
  | Post _ | Info _ | Dataframe _ | Error _ | Sleep _
  | DownloadButton _ _ _ _ | Expander _ | Text _ => true
  | Title _ | Write _ | Markdown _ | Caption _ | Success _ | Warning _ => false
  end.

(** The same world, except that pandas loads [df] from any file. *)
Definition with_frame (w : World) (df : DataFrame) : World :=
  {| post := post w;
     read_csv := fun _ => Some df;
     read_excel := fun _ => Some df;
     py_repr := py_repr w;
     platform := platform w;
     fpdf := fpdf w |}.

(** ** Sample data *)

(** The body of a successful answer whose text is [t], and the body with no
    candidate in it. *)
Definition gemini_body (t : string) : pyval :=
  PDict {[ "candidates" :=
    PList [PDict {[ "content" :=
      PDict {[ "parts" := PList [PDict {[ "text" := PStr t ]}] ]} ]}] ]}.

Definition ok_response (t : string) : Response :=
  {| status_code := 200; text := "{...}"; json := Some (gemini_body t) |}.

Definition failed_response : Response :=
  {| status_code := 500; text := "quota exceeded"; json := None |}.

Definition empty_response : Response :=
  {| status_code := 200; text := "{}"; json := Some (PDict ∅) |}.

(** The table with columns a, b and rows 1,2 and 3,4, followed by [more]. *)
Definition frame_ab (more : list (list pyval)) : DataFrame :=
  {| columns := [PStr "a"; PStr "b"];
     rows := [PInt 1; PInt 2] :: [PInt 3; PInt 4] :: more |}.

Definition sample_world (answers : nat -> Request -> option Response) : World :=
  {| post := answers;
     read_csv := fun _ => Some (frame_ab []);
     read_excel := fun _ => None;
     py_repr := fun _ => "?";
     platform := Posix;
     fpdf := fun _ => Some [] |}.

(** Every request is answered with the text [Revenue is flat.]. *)
Definition world_ok : World :=
  sample_world (fun _ _ => Some (ok_response "Revenue is flat.")).

(** The first request is refused, the others are answered. *)
Definition world_stage1_fails : World :=
  sample_world (fun n _ =>
    if Nat.eqb n 0 then Some failed_response
    else Some (ok_response "Revenue is flat.")).

(** The third request is refused, the others are answered. *)
Definition world_stage3_fails : World :=
  sample_world (fun n _ =>
    if Nat.eqb n 2 then Some failed_response
    else Some (ok_response "Revenue is flat.")).

(** Status 200 with a body that has no candidates. *)
Definition world_empty_body : World :=
  sample_world (fun _ _ => Some empty_response).

(** Two tables of more than ten rows that differ only after the tenth. *)
Definition frame_long : DataFrame :=
  frame_ab (replicate 8 [PInt 5; PInt 6] ++ [[PInt 7; PInt 8]; [PInt 9; PInt 0];
                                             [PStr "x"; PNone]; [PInt 1; PInt 1]]).

Definition frame_long' : DataFrame :=
  frame_ab (replicate 8 [PInt 5; PInt 6] ++ [[PStr "changed"; PFloat 0]]).

Definition sample_inputs : Inputs :=
  {| api_key := "secret";
     uploaded_file := Some {| name := "sales.csv"; content := [] |};
     button := true |}.

Definition inputs_without_key : Inputs :=
  {| api_key := EmptyString;
     uploaded_file := Some {| name := "sales.csv"; content := [] |};
     button := true |}.

(** The state after more events, and after one more request. *)
Definition after (s : State) (es : list event) : State :=
  {| log := log s ++ es; calls := calls s |}.

Definition sent (s : State) (q : Request) : State :=
  {| log := log s ++ [Post q]; calls := S (calls s) |}.

(** What every stage does with the outcome of its call: show the result,
    pause and count the step; an exception passes through. *)
Definition shown (label : string) (step : Z) (r : result pyval * State)
  : result (pyval * Z) * State :=
  match r with
  | (Val v, s) =>
      (Val (v, step + 1), after s [Markdown label; Write v; Sleep 1])
  | (Raise e, s) => (Raise e, s)
  end.

Definition step_info (step : Z) (name : string) (total_steps : Z) : event :=
  Info ("Step " +:+ pretty step +:+ "/" +:+ pretty total_steps +:+ ": " +:+ name).

(** [isinstance(v, str)]. *)
Definition is_str (v : pyval) : bool :=
  match v with
  | PStr _ => true
  | _ => false
  end.

(** A stage run from [s] returns [v] and shows it with [st.write]. *)
Definition shows (m : M (pyval * Z)) (s : State) (v : pyval) : Prop :=
  exists (step' : Z) (s' : State),
    m s = (Val (v, step'), s') /\ writes (log s') = writes (log s) ++ [v].

(** A computation that only adds to the log. *)
Definition extends {A} (m : M A) : Prop :=
  forall s : State, exists es : list event, log (snd (m s)) = log s ++ es.

(** ** Vocabulary of the further properties *)

(** What the script shows first (lines 46-50) and last (lines 139-140). *)
Definition page_top : list event :=
  [Title "🔎 AI-Powered Data Insights (Gemini + Streamlit)";
   Write (PStr (LF +:+
     "Upload your Gemini API key and a dataset (CSV or Excel). The app will analyze, clean, and extract actionable insights automatically." +:+
     LF))].

Definition page_bottom : list event :=
  [Markdown "---";
   Caption "Created with ❤️ using Streamlit and Google Gemini"].

(** The inputs of a run with a credential, a file and the button pressed. *)
Definition pressed (k : string) (f : UploadedFile) : Inputs :=
  {| api_key := k; uploaded_file := Some f; button := true |}.

(** The n-th request of the run, when it carries [prompt], is answered with
    status 200 and the text [t]. *)
Definition answers_text (w : World) (n : nat) (k prompt t : string) : Prop :=
  exists (a : Response) (j : pyval),
    post w n (gemini_request k prompt) = Some a /\
    status_code a = 200 /\ json a = Some j /\ has_first_text j (PStr t).

(** A file name that is csv, or ends in .csv. *)
Definition csv_name (n : string) : Prop :=
  n = "csv" \/ exists pre : string, n = pre +:+ ".csv".


Definition sales_file : UploadedFile :=
  {| name := "sales.csv"; content := [] |}.

(** pandas reads no file; every request is answered. *)
Definition world_unreadable : World :=
  {| post := fun _ _ => Some (ok_response "Revenue is flat.");
     read_csv := fun _ => None;
     read_excel := fun _ => None;
     py_repr := fun _ => "?";
     platform := Posix;
     fpdf := fun _ => Some [] |}.

(** ** Facts about strings *)

Lemma append_assoc (a b c : string) : (a +:+ b) +:+ c = a +:+ (b +:+ c).
Proof.
  induction a as [|x a IH]; [reflexivity|].
  change (String x ((a +:+ b) +:+ c) = String x (a +:+ (b +:+ c))).
  by rewrite IH.
Qed.

Lemma append_nil_r (a : string) : a +:+ EmptyString = a.
Proof.
  induction a as [|x a IH]; [reflexivity|].
  change (String x (a +:+ EmptyString) = String x a). by rewrite IH.
Qed.

Lemma contains_mid (pre x post : string) : contains (pre +:+ x +:+ post) x.
Proof. by exists pre, post. Qed.

Lemma contains_app_r (pre s x : string) : contains s x -> contains (pre +:+ s) x.
Proof.
  intros (a & b & ->). exists (pre +:+ a), b. by rewrite append_assoc.
Qed.

Lemma contains_app_l (s post x : string) : contains s x -> contains (s +:+ post) x.
Proof.
  intros (a & b & ->). exists a, (b +:+ post). by rewrite !append_assoc.
Qed.

Lemma prefix_append (x s : string) :
  String.prefix x s = true <-> exists post, s = x +:+ post.
Proof.
  revert s. induction x as [|c x IH]; intros s.
  - split; [intros _; by exists s | by destruct s].
  - destruct s as [|c' s].
    + split; [done | intros [post H]; discriminate H].
    + cbn [String.prefix]. destruct (ascii_dec c c') as [->|Hne].
      * rewrite IH. split.
        -- intros [post ->]. by exists post.
        -- intros [post H]. exists post.
           change (String c' s = String c' (x +:+ post)) in H. congruence.
      * split; [done |]. intros [post H].
        change (String c' s = String c (x +:+ post)) in H. congruence.
Qed.

Lemma containsb_contains (s x : string) :
  containsb s x = true <-> contains s x.
Proof.
  induction s as [|c s IH]; cbn [containsb].
  - rewrite orb_false_r, prefix_append. split.
    + intros [post H]. exists EmptyString, post. exact H.
    + intros (pre & post & H). destruct pre; [by exists post |].
      discriminate H.
  - rewrite orb_true_iff, prefix_append, IH. split.
    + intros [[post H] | (pre & post & H)].
      * exists EmptyString, post. exact H.
      * exists (String c pre), post. rewrite H. reflexivity.
    + intros (pre & post & H). destruct pre as [|c' pre].
      * left. by exists post.
      * right. exists pre, post.
        change (String c s = String c' (pre +:+ x +:+ post)) in H.
        congruence.
Qed.

(** ** Facts about the monad *)

Lemma after_after (s : State) (es es' : list event) :
  after (after s es) es' = after s (es ++ es').
Proof. unfold after. cbn. by rewrite <- app_assoc. Qed.

Lemma after_nil (s : State) : after s [] = s.
Proof. destruct s. unfold after. cbn. by rewrite app_nil_r. Qed.

Lemma bind_eq {A B} (m : M A) (k : A -> M B) (s : State) :
  (m ≫= k) s =
  match m s with
  | (Val a, s') => k a s'
  | (Raise e, s') => (Raise e, s')
  end.
Proof. reflexivity. Qed.

Lemma emit_eq (e : event) (s : State) : emit e s = (Val tt, after s [e]).
Proof. reflexivity. Qed.

Lemma progress_step_eq (n : Z) (name : string) (t : Z) (s : State) :
  progress_step n name t s =
  (Val tt, after s [step_info n name t]).
Proof. reflexivity. Qed.

(** ** The Gemini call *)

Lemma has_first_text_sound (res v : pyval) :
  has_first_text res v -> first_text res = Val v.
Proof.
  intros (d & dc & dn & dp & cs & ps & -> & Hd & Hc & Hn & Hp).
  unfold first_text. cbn. rewrite Hd. cbn. rewrite Hc. cbn. rewrite Hn. cbn.
  by rewrite Hp.
Qed.

Lemma call_gemini_api_eq (w : World) (api_key prompt : string) (s : State) :
  call_gemini_api w api_key prompt s =
  let q := gemini_request api_key prompt in
  match post w (calls s) q with
  | None => (Raise RequestException, sent s q)
  | Some a =>
      if Z.eqb (status_code a) 200
      then (response_json a ≫= first_text, sent s q)
      else (Val PNone,
            after (sent s q) [Error ("Gemini API Error: " +:+ text a)])
  end.
Proof.
  unfold call_gemini_api. rewrite bind_eq. unfold requests_post.
  cbv zeta. fold (sent s (gemini_request api_key prompt)).
  destruct (post w (calls s) (gemini_request api_key prompt)) as [a|]; [|done].
  destruct (Z.eqb (status_code a) 200); [|done].
  rewrite bind_eq. unfold lift.
  by destruct (response_json a) as [res|e].
Qed.

(** ** The stages, one equation each *)

Ltac stage_eq :=
  intros;
  repeat (rewrite bind_eq; try rewrite progress_step_eq; try rewrite emit_eq);
  match goal with
  | |- context [call_gemini_api ?w ?k ?p ?s] =>
      destruct (call_gemini_api w k p s) as [[v|e] s1]
  end;
  [ repeat (rewrite bind_eq; rewrite emit_eq); cbn [shown];
    by rewrite !after_after
  | reflexivity ].

Lemma stage1_eq (w : World) (api_key : string) (df : DataFrame)
    (step total : Z) (p : string) (s : State) :
  profile_prompt w df = Val p ->
  stage1 w api_key df step total s =
  shown "**Profile Result:**" step
    (call_gemini_api w api_key p
       (after s [step_info step "Profiling Data..." total;
                 Dataframe (head 10 df)])).
Proof.
  intros Hp. unfold stage1.
  rewrite bind_eq, progress_step_eq, bind_eq, emit_eq, after_after, bind_eq.
  unfold lift at 1. rewrite Hp. cbn [app].
  stage_eq.
Qed.

Lemma stage1_raise (w : World) (api_key : string) (df : DataFrame)
    (step total : Z) (e : pyexc) (s : State) :
  profile_prompt w df = Raise e ->
  stage1 w api_key df step total s =
  (Raise e, after s [step_info step "Profiling Data..." total;
                     Dataframe (head 10 df)]).
Proof.
  intros Hp. unfold stage1.
  rewrite bind_eq, progress_step_eq, bind_eq, emit_eq, after_after, bind_eq.
  unfold lift at 1. by rewrite Hp.
Qed.

Lemma stage2_eq (w : World) (api_key : string) (r : pyval)
    (step total : Z) (s : State) :
  stage2 w api_key r step total s =
  shown "**Cleaning Steps:**" step
    (call_gemini_api w api_key (cleaning_prompt w r)
       (after s [step_info step "Data Cleaning..." total])).
Proof. unfold stage2. stage_eq. Qed.

Lemma stage3_eq (w : World) (api_key : string) (step total : Z) (s : State) :
  stage3 w api_key step total s =
  shown "**Key Metrics & Features:**" step
    (call_gemini_api w api_key metrics_prompt
       (after s [step_info step
                   "Calculating Metrics and Engineering Features..." total])).
Proof. unfold stage3. stage_eq. Qed.

Lemma stage4_eq (w : World) (api_key : string) (r : pyval)
    (step total : Z) (s : State) :
  stage4 w api_key r step total s =
  shown "**Hidden Patterns:**" step
    (call_gemini_api w api_key (analysis_prompt w r)
       (after s [step_info step "Finding Hidden Patterns & Analysis..." total])).
Proof. unfold stage4. stage_eq. Qed.

Lemma stage5_eq (w : World) (api_key : string) (step total : Z) (s : State) :
  stage5 w api_key step total s =
  shown "**Actionable Insights:**" step
    (call_gemini_api w api_key insights_prompt
       (after s [step_info step
                   "Generating Insights & Recommendations..." total])).
Proof. unfold stage5. stage_eq. Qed.

(** ** Outcomes of the call *)

Lemma first_text_complete (res v : pyval) :
  first_text res = Val v -> has_first_text res v.
Proof.
  unfold first_text, has_first_text. intros H.
  destruct res as [| | | | |?|d]; try discriminate H. cbn in H.
  destruct (d !! "candidates") as [cands|] eqn:Hd; [|discriminate H].
  cbn in H.
  destruct cands as [| | | |[|? ?]|[|c cs]|?]; try discriminate H. cbn in H.
  destruct c as [| | | | |?|dc]; try discriminate H. cbn in H.
  destruct (dc !! "content") as [content|] eqn:Hc; [|discriminate H].
  cbn in H.
  destruct content as [| | | | |?|dn]; try discriminate H. cbn in H.
  destruct (dn !! "parts") as [parts|] eqn:Hn; [|discriminate H].
  cbn in H.
  destruct parts as [| | | |[|? ?]|[|part ps]|?]; try discriminate H. cbn in H.
  destruct part as [| | | | |?|dp]; try discriminate H. cbn in H.
  destruct (dp !! "text") as [t|] eqn:Hp; [|discriminate H].
  injection H as ->. by exists d, dc, dn, dp, cs, ps.
Qed.

Lemma call_ok (w : World) (api_key prompt : string) (s : State)
    (a : Response) (j v : pyval) :
  answered w s api_key prompt a ->
  status_code a = 200 -> json a = Some j -> has_first_text j v ->
  call_gemini_api w api_key prompt s =
  (Val v, sent s (gemini_request api_key prompt)).
Proof.
  intros Ha H200 Hj Hv. rewrite call_gemini_api_eq. cbv zeta.
  unfold answered in Ha. rewrite Ha, H200. cbn [Z.eqb Pos.eqb].
  unfold response_json. rewrite Hj. cbn.
  by rewrite (has_first_text_sound _ _ Hv).
Qed.

Lemma call_failed (w : World) (api_key prompt : string) (s : State)
    (a : Response) :
  answered w s api_key prompt a ->
  status_code a <> 200 ->
  call_gemini_api w api_key prompt s =
  (Val PNone,
   after (sent s (gemini_request api_key prompt))
     [Error ("Gemini API Error: " +:+ text a)]).
Proof.
  intros Ha Hne. rewrite call_gemini_api_eq. cbv zeta.
  unfold answered in Ha. rewrite Ha.
  by destruct (Z.eqb_spec (status_code a) 200).
Qed.

Lemma writes_app (l l' : list event) : writes (l ++ l') = writes l ++ writes l'.
Proof. apply omap_app. Qed.

Lemma posts_app (l l' : list event) : posts (l ++ l') = posts l ++ posts l'.
Proof. apply omap_app. Qed.

Lemma shown_ok (m : M (pyval * Z)) (label : string) (step : Z)
    (s : State) (es : list event) (q : Request) (v : pyval) :
  m s = shown label step (Val v, sent (after s es) q) ->
  writes es = [] ->
  shows m s v.
Proof.
  intros Hm Hes. unfold shows. rewrite Hm. exists (step + 1), (after (sent (after s es) q)
    [Markdown label; Write v; Sleep 1]).
  split; [reflexivity|].
  cbn [shown snd log sent after]. rewrite !writes_app, Hes. cbn.
  by rewrite !app_nil_r.
Qed.

Lemma gemini_body_text (t : string) : has_first_text (gemini_body t) (PStr t).
Proof.
  unfold has_first_text, gemini_body.
  eexists _, _, _, _, [], []. split; [reflexivity|].
  repeat split; apply lookup_singleton_eq.
Qed.

(** ** C4 and C5: what the Gemini call returns *)

(** C4: when the answer to a call has status 200 and its decoded body holds
    a first candidate with a first text part, [call_gemini_api] returns
    exactly that part, and each of the five stages, run on such an answer,
    returns it and shows it with [st.write]. *)
Theorem C4_text_part_returned_and_shown (w : World) (api_key : string)
    (s : State) (a : Response) (j v : pyval) :
  status_code a = 200 -> json a = Some j -> has_first_text j v ->
  (forall p, answered w s api_key p a ->
     call_gemini_api w api_key p s =
     (Val v, sent s (gemini_request api_key p))) /\
  (forall df step total p,
     profile_prompt w df = Val p -> answered w s api_key p a ->
     shows (stage1 w api_key df step total) s v) /\
  (forall r step total,
     answered w s api_key (cleaning_prompt w r) a ->
     shows (stage2 w api_key r step total) s v) /\
  (forall step total,
     answered w s api_key metrics_prompt a ->
     shows (stage3 w api_key step total) s v) /\
  (forall r step total,
     answered w s api_key (analysis_prompt w r) a ->
     shows (stage4 w api_key r step total) s v) /\
  (forall step total,
     answered w s api_key insights_prompt a ->
     shows (stage5 w api_key step total) s v).
Proof.
  intros H200 Hj Hv.
  assert (Hcall : forall es p, answered w s api_key p a ->
            call_gemini_api w api_key p (after s es) =
            (Val v, sent (after s es) (gemini_request api_key p))).
  { intros es p Ha. by apply (call_ok w api_key p (after s es) a j v). }
  split; [intros p Ha; by apply (call_ok w api_key p s a j v)|].
  split; [intros df step total p Hp Ha|].
  { eapply shown_ok; [|shelve].
    rewrite (stage1_eq _ _ _ _ _ p) by done. by rewrite Hcall. }
  split; [intros r step total Ha|].
  { eapply shown_ok; [|shelve]. rewrite stage2_eq. by rewrite Hcall. }
  split; [intros step total Ha|].
  { eapply shown_ok; [|shelve]. rewrite stage3_eq. by rewrite Hcall. }
  split; [intros r step total Ha|].
  { eapply shown_ok; [|shelve]. rewrite stage4_eq. by rewrite Hcall. }
  intros step total Ha.
  eapply shown_ok; [|shelve]. rewrite stage5_eq. by rewrite Hcall.
  Unshelve. all: reflexivity.
Qed.

Lemma C4_witness :
  status_code (ok_response "Revenue is flat.") = 200 /\
  json (ok_response "Revenue is flat.") = Some (gemini_body "Revenue is flat.") /\
  has_first_text (gemini_body "Revenue is flat.") (PStr "Revenue is flat.") /\
  call_gemini_api world_ok "secret" "Hello" init =
    (Val (PStr "Revenue is flat."), sent init (gemini_request "secret" "Hello")) /\
  shows (stage3 world_ok "secret" 3 6) init (PStr "Revenue is flat.").
Proof.
  split; [reflexivity|]. split; [reflexivity|].
  split; [apply gemini_body_text|].
  destruct (C4_text_part_returned_and_shown world_ok "secret" init
              (ok_response "Revenue is flat.")
              (gemini_body "Revenue is flat.") (PStr "Revenue is flat.")
              eq_refl eq_refl (gemini_body_text "Revenue is flat."))
    as (Hcall & _ & _ & H3 & _).
  split; [apply Hcall; reflexivity | apply H3; reflexivity].
Defined.

(** C5, as amended: when the status of the answer is not 200 the call shows
    an error message that contains the raw body and returns [None]; and
    when the call returns a string the status was 200 and the string is the
    first text part of the body. *)
Theorem C5_error_shown_and_none_returned (w : World) (api_key prompt : string)
    (s : State) (a : Response) :
  answered w s api_key prompt a ->
  (status_code a <> 200 ->
   exists msg : string,
     call_gemini_api w api_key prompt s =
       (Val PNone, after (sent s (gemini_request api_key prompt)) [Error msg]) /\
     contains msg (text a)) /\
  (forall t : string,
     fst (call_gemini_api w api_key prompt s) = Val (PStr t) ->
     status_code a = 200 /\
     exists j, json a = Some j /\ has_first_text j (PStr t)).
Proof.
  intros Ha. split.
  - intros Hne. exists ("Gemini API Error: " +:+ text a). split.
    + by apply call_failed.
    + exists "Gemini API Error: ", EmptyString. by rewrite append_nil_r.
  - intros t. rewrite call_gemini_api_eq. cbv zeta.
    unfold answered in Ha. rewrite Ha.
    destruct (Z.eqb_spec (status_code a) 200) as [H200|Hne]; [|discriminate].
    cbn [fst]. unfold response_json.
    destruct (json a) as [j|]; [|discriminate]. cbn. intros Ht.
    split; [done|]. exists j. split; [done|]. by apply first_text_complete.
Qed.

Lemma C5_witness :
  answered world_stage1_fails init "secret" "Hello" failed_response /\
  exists msg : string,
    call_gemini_api world_stage1_fails "secret" "Hello" init =
      (Val PNone, after (sent init (gemini_request "secret" "Hello")) [Error msg]) /\
    contains msg "quota exceeded".
Proof.
  split; [reflexivity|].
  apply (C5_error_shown_and_none_returned world_stage1_fails "secret" "Hello"
           init failed_response eq_refl).
  discriminate.
Defined.

(** C5 as stated fails: with status 200 and a body without candidates the
    call raises [KeyError] and returns no string. *)
Lemma C5_counterexample :
  answered world_empty_body init "secret" "Hello" empty_response /\
  status_code empty_response = 200 /\
  fst (call_gemini_api world_empty_body "secret" "Hello" init) = Raise KeyError /\
  ~ (status_code empty_response = 200 <->
     exists t : string,
       fst (call_gemini_api world_empty_body "secret" "Hello" init) =
       Val (PStr t)).
Proof.
  assert (H : fst (call_gemini_api world_empty_body "secret" "Hello" init) =
              Raise KeyError) by reflexivity.
  repeat split; try reflexivity.
  intros [Hto _]. destruct (Hto eq_refl) as [t Ht].
  rewrite H in Ht. discriminate Ht.
Qed.

(** ** The log only grows *)

Create HintDb log_grows.

Lemma extends_ret {A} (a : A) : extends (mret a : M A).
Proof. intros s. exists []. cbn. by rewrite app_nil_r. Qed.

Lemma extends_lift {A} (r : result A) : extends (lift r).
Proof. intros s. exists []. cbn. by rewrite app_nil_r. Qed.

Lemma extends_emit (e : event) : extends (emit e).
Proof. intros s. by exists [e]. Qed.

Lemma extends_progress_step (n : Z) (name : string) (t : Z) :
  extends (progress_step n name t).
Proof. apply extends_emit. Qed.

Lemma extends_requests_post (w : World) (q : Request) :
  extends (requests_post w q).
Proof.
  intros s. exists [Post q]. unfold requests_post.
  by destruct (post w (calls s) q).
Qed.

Lemma extends_bind {A B} (m : M A) (k : A -> M B) :
  extends m -> (forall a, extends (k a)) -> extends (m ≫= k).
Proof.
  intros Hm Hk s. rewrite bind_eq. destruct (Hm s) as [es Hes].
  destruct (m s) as [[a|e] s1]; cbn in Hes.
  - destruct (Hk a s1) as [es' Hes']. exists (es ++ es').
    by rewrite Hes', Hes, app_assoc.
  - by exists es.
Qed.

#[local] Hint Resolve extends_ret extends_lift extends_emit
  extends_progress_step extends_requests_post : log_grows.

Ltac grows :=
  repeat (apply extends_bind; [|intros]);
  try match goal with |- extends (if ?c then _ else _) => destruct c end;
  repeat (apply extends_bind; [|intros]);
  auto with log_grows.

Lemma extends_call (w : World) (api_key prompt : string) :
  extends (call_gemini_api w api_key prompt).
Proof. unfold call_gemini_api. grows. Qed.

#[local] Hint Resolve extends_call : log_grows.

Lemma extends_stage1 w api_key df step total :
  extends (stage1 w api_key df step total).
Proof. unfold stage1. grows. Qed.

Lemma extends_stage2 w api_key r step total :
  extends (stage2 w api_key r step total).
Proof. unfold stage2. grows. Qed.

Lemma extends_stage3 w api_key step total :
  extends (stage3 w api_key step total).
Proof. unfold stage3. grows. Qed.

Lemma extends_stage4 w api_key r step total :
  extends (stage4 w api_key r step total).
Proof. unfold stage4. grows. Qed.

Lemma extends_stage5 w api_key step total :
  extends (stage5 w api_key step total).
Proof. unfold stage5. grows. Qed.

Lemma extends_elem {A} (m : M A) (e : event) (s : State) :
  extends m -> e ∈ log s -> e ∈ log (snd (m s)).
Proof.
  intros Hm He. destruct (Hm s) as [es ->]. apply elem_of_app. by left.
Qed.

(** ** The five stages in a row *)

Lemma stages_eq (w : World) (api_key : string) (df : DataFrame) (total : Z)
    (s : State) :
  stages w api_key df total s =
  match stage1 w api_key df 1 total s with
  | (Raise e, s1) => (Raise e, s1)
  | (Val (r1, n1), s1) =>
  match stage2 w api_key r1 n1 total s1 with
  | (Raise e, s2) => (Raise e, s2)
  | (Val (r2, n2), s2) =>
  match stage3 w api_key n2 total s2 with
  | (Raise e, s3) => (Raise e, s3)
  | (Val (r3, n3), s3) =>
  match stage4 w api_key r3 n3 total s3 with
  | (Raise e, s4) => (Raise e, s4)
  | (Val (r4, n4), s4) =>
  match stage5 w api_key n4 total s4 with
  | (Raise e, s5) => (Raise e, s5)
  | (Val (r5, n5), s5) =>
      (Val ({| profile_result := r1; cleaning_result := r2;
               metrics_result := r3; analysis_result := r4;
               insights_result := r5 |}, n5), s5)
  end end end end end.
Proof.
  unfold stages. cbv zeta. rewrite bind_eq.
  destruct (stage1 _ _ _ _ _ _) as [[[r1 n1]|e] s1]; [|done]. rewrite bind_eq.
  destruct (stage2 _ _ _ _ _ _) as [[[r2 n2]|e] s2]; [|done]. rewrite bind_eq.
  destruct (stage3 _ _ _ _ _) as [[[r3 n3]|e] s3]; [|done]. rewrite bind_eq.
  destruct (stage4 _ _ _ _ _ _) as [[[r4 n4]|e] s4]; [|done]. rewrite bind_eq.
  by destruct (stage5 _ _ _ _ _) as [[[r5 n5]|e] s5].
Qed.

Lemma call_posts (w : World) (api_key prompt : string) (s : State) :
  posts (log (snd (call_gemini_api w api_key prompt s))) =
    posts (log s) ++ [gemini_request api_key prompt] /\
  calls (snd (call_gemini_api w api_key prompt s)) = S (calls s).
Proof.
  rewrite call_gemini_api_eq. cbv zeta.
  destruct (post w (calls s) _) as [a|]; [|by cbn; rewrite posts_app].
  destruct (Z.eqb (status_code a) 200); cbn; rewrite !posts_app; cbn;
    by rewrite ?app_nil_r.
Qed.

Lemma call_has_post (w : World) (api_key prompt : string) (s : State) :
  Post (gemini_request api_key prompt) ∈
  log (snd (call_gemini_api w api_key prompt s)).
Proof.
  rewrite call_gemini_api_eq. cbv zeta.
  destruct (post w (calls s) _) as [a|]; [|cbn; set_solver].
  destruct (Z.eqb (status_code a) 200); cbn; set_solver.
Qed.

Lemma shown_elem (label : string) (step : Z) (x : result pyval * State)
    (e : event) :
  e ∈ log (snd x) -> e ∈ log (snd (shown label step x)).
Proof. destruct x as [[v|err] s]; cbn; set_solver. Qed.

Lemma call_graceful (w : World) (api_key prompt : string) (s : State) :
  graceful w ->
  exists v : pyval,
    fst (call_gemini_api w api_key prompt s) = Val v /\
    (forall a, answered w s api_key prompt a -> status_code a <> 200 ->
               v = PNone).
Proof.
  intros Hw. destruct (Hw (calls s) (gemini_request api_key prompt))
    as (a & Ha & Hbody).
  destruct (Z.eq_dec (status_code a) 200) as [H200|Hne].
  - destruct (Hbody H200) as (j & v & Hj & Hv). exists v.
    rewrite (call_ok w api_key prompt s a j v) by done. split; [done|].
    intros a' Ha' Hne. unfold answered in Ha'. congruence.
  - exists PNone. rewrite (call_failed w api_key prompt s a) by done. done.
Qed.

(** A stage, from its equation, in a graceful world. *)
Lemma shown_graceful (w : World) (api_key prompt label : string) (step : Z)
    (s : State) (es : list event) :
  graceful w -> posts es = [] ->
  exists (v : pyval) (s' : State),
    shown label step (call_gemini_api w api_key prompt (after s es)) =
      (Val (v, step + 1), s') /\
    posts (log s') = posts (log s) ++ [gemini_request api_key prompt] /\
    calls s' = S (calls s) /\
    (forall a, answered w s api_key prompt a -> status_code a <> 200 ->
               v = PNone).
Proof.
  intros Hw Hes.
  destruct (call_graceful w api_key prompt (after s es) Hw) as (v & Hv & Hnone).
  destruct (call_posts w api_key prompt (after s es)) as [Hposts Hcalls].
  destruct (call_gemini_api w api_key prompt (after s es)) as [r s1].
  cbn in Hv, Hposts, Hcalls. subst r.
  exists v, (after s1 [Markdown label; Write v; Sleep 1]).
  split; [done|]. cbn. rewrite posts_app, Hposts, posts_app, Hes. cbn.
  by rewrite !app_nil_r.
Qed.

(** ** C3: a refused call does not stop the stages *)

(** C3: when every call is answered, with whatever status, and the answers
    with status 200 carry a text part, the five stages all run: the five
    requests are sent in order, and each stage whose answer does not have
    status 200 has [None] as its result. *)
Theorem C3_refused_call_does_not_halt (w : World) (api_key : string)
    (df : DataFrame) (total : Z) (s : State) (p1 : string) :
  graceful w ->
  profile_prompt w df = Val p1 ->
  exists (r : Results) (s' : State),
    stages w api_key df total s = (Val (r, 6), s') /\
    posts (log s') =
      posts (log s) ++
      [gemini_request api_key p1;
       gemini_request api_key (cleaning_prompt w (profile_result r));
       gemini_request api_key metrics_prompt;
       gemini_request api_key (analysis_prompt w (metrics_result r));
       gemini_request api_key insights_prompt] /\
    calls s' = (5 + calls s)%nat /\
    (forall a, post w (calls s) (gemini_request api_key p1) = Some a ->
       status_code a <> 200 -> profile_result r = PNone) /\
    (forall a, post w (1 + calls s)%nat
                 (gemini_request api_key (cleaning_prompt w (profile_result r)))
               = Some a ->
       status_code a <> 200 -> cleaning_result r = PNone) /\
    (forall a, post w (2 + calls s)%nat (gemini_request api_key metrics_prompt)
               = Some a ->
       status_code a <> 200 -> metrics_result r = PNone) /\
    (forall a, post w (3 + calls s)%nat
                 (gemini_request api_key (analysis_prompt w (metrics_result r)))
               = Some a ->
       status_code a <> 200 -> analysis_result r = PNone) /\
    (forall a, post w (4 + calls s)%nat (gemini_request api_key insights_prompt)
               = Some a ->
       status_code a <> 200 -> insights_result r = PNone).
Proof.
  intros Hw Hp1. rewrite stages_eq.
  rewrite (stage1_eq w api_key df 1 total p1 s Hp1).
  destruct (shown_graceful w api_key p1 "**Profile Result:**" 1 s
              [step_info 1 "Profiling Data..." total; Dataframe (head 10 df)]
              Hw eq_refl) as (r1 & s1 & -> & Hq1 & Hc1 & Hn1).
  rewrite stage2_eq.
  destruct (shown_graceful w api_key (cleaning_prompt w r1)
              "**Cleaning Steps:**" (1 + 1) s1
              [step_info (1 + 1) "Data Cleaning..." total]
              Hw eq_refl) as (r2 & s2 & -> & Hq2 & Hc2 & Hn2).
  rewrite stage3_eq.
  destruct (shown_graceful w api_key metrics_prompt
              "**Key Metrics & Features:**" (1 + 1 + 1) s2
              [step_info (1 + 1 + 1)
                 "Calculating Metrics and Engineering Features..." total]
              Hw eq_refl) as (r3 & s3 & -> & Hq3 & Hc3 & Hn3).
  rewrite stage4_eq.
  destruct (shown_graceful w api_key (analysis_prompt w r3)
              "**Hidden Patterns:**" (1 + 1 + 1 + 1) s3
              [step_info (1 + 1 + 1 + 1)
                 "Finding Hidden Patterns & Analysis..." total]
              Hw eq_refl) as (r4 & s4 & -> & Hq4 & Hc4 & Hn4).
  rewrite stage5_eq.
  destruct (shown_graceful w api_key insights_prompt
              "**Actionable Insights:**" (1 + 1 + 1 + 1 + 1) s4
              [step_info (1 + 1 + 1 + 1 + 1)
                 "Generating Insights & Recommendations..." total]
              Hw eq_refl) as (r5 & s5 & -> & Hq5 & Hc5 & Hn5).
  eexists _, s5. split; [reflexivity|]. cbn [profile_result cleaning_result
    metrics_result analysis_result insights_result].
  split. { rewrite Hq5, Hq4, Hq3, Hq2, Hq1, <- !app_assoc. reflexivity. }
  split. { rewrite Hc5, Hc4, Hc3, Hc2, Hc1. reflexivity. }
  unfold answered in *. rewrite Hc1 in Hn2. rewrite Hc2, Hc1 in Hn3.
  rewrite Hc3, Hc2, Hc1 in Hn4. rewrite Hc4, Hc3, Hc2, Hc1 in Hn5.
  repeat split; assumption.
Qed.

Lemma world_stage1_fails_graceful : graceful world_stage1_fails.
Proof.
  intros n q. destruct n as [|n]; eexists; (split; [reflexivity|]).
  - discriminate.
  - intros _. eexists _, _. split; [reflexivity|]. apply gemini_body_text.
Qed.

Lemma C3_witness :
  graceful world_stage1_fails /\
  exists p1 : string,
    profile_prompt world_stage1_fails (frame_ab []) = Val p1 /\
    exists (r : Results) (s' : State),
      stages world_stage1_fails "secret" (frame_ab []) 6 init = (Val (r, 6), s') /\
      calls s' = 5%nat /\
      profile_result r = PNone.
Proof.
  split; [exact world_stage1_fails_graceful|].
  eexists. split; [reflexivity|].
  destruct (C3_refused_call_does_not_halt world_stage1_fails "secret"
              (frame_ab []) 6 init _ world_stage1_fails_graceful eq_refl)
    as (r & s' & Hrun & _ & Hcalls & Hnone & _).
  exists r, s'. split; [exact Hrun|]. split; [exact Hcalls|].
  apply (Hnone failed_response); [reflexivity | discriminate].
Defined.

(** ** C10: the text [None] in the next prompt *)

Lemma stages_keep_stage2 (w : World) (api_key : string) (df : DataFrame)
    (total : Z) (s s1 : State) (r1 : pyval) (n1 : Z) (e : event) :
  stage1 w api_key df 1 total s = (Val (r1, n1), s1) ->
  e ∈ log (snd (stage2 w api_key r1 n1 total s1)) ->
  e ∈ log (snd (stages w api_key df total s)).
Proof.
  intros H1 He. rewrite stages_eq, H1.
  destruct (stage2 _ _ _ _ _ _) as [[[r2 n2]|?] s2]; cbn in He; [|done].
  pose proof (extends_elem _ e s2 (extends_stage3 w api_key n2 total) He) as H3.
  destruct (stage3 _ _ _ _ _) as [[[r3 n3]|?] s3]; cbn in H3; [|done].
  pose proof (extends_elem _ e s3 (extends_stage4 w api_key r3 n3 total) H3)
    as H4.
  destruct (stage4 _ _ _ _ _ _) as [[[r4 n4]|?] s4]; cbn in H4; [|done].
  pose proof (extends_elem _ e s4 (extends_stage5 w api_key n4 total) H4) as H5.
  by destruct (stage5 _ _ _ _ _) as [[[r5 n5]|?] s5].
Qed.

Lemma stages_keep_stage4 (w : World) (api_key : string) (df : DataFrame)
    (total : Z) (s s1 s2 s3 : State) (r1 r2 r3 : pyval) (n1 n2 n3 : Z)
    (e : event) :
  stage1 w api_key df 1 total s = (Val (r1, n1), s1) ->
  stage2 w api_key r1 n1 total s1 = (Val (r2, n2), s2) ->
  stage3 w api_key n2 total s2 = (Val (r3, n3), s3) ->
  e ∈ log (snd (stage4 w api_key r3 n3 total s3)) ->
  e ∈ log (snd (stages w api_key df total s)).
Proof.
  intros H1 H2 H3 He. rewrite stages_eq, H1, H2, H3.
  destruct (stage4 _ _ _ _ _ _) as [[[r4 n4]|?] s4]; cbn in He; [|done].
  pose proof (extends_elem _ e s4 (extends_stage5 w api_key n4 total) He) as H5.
  by destruct (stage5 _ _ _ _ _) as [[[r5 n5]|?] s5].
Qed.

(** C10: when the call of stage 1 is answered with a status other than 200,
    the request of stage 2 carries the prompt with the four characters
    [None] where the profile would be; likewise the request of stage 4 when
    the call of stage 3 is refused.  Neither prompt is the one an empty
    string would give. *)
Theorem C10_refused_result_is_embedded_as_None (w : World) (api_key : string)
    (df : DataFrame) (total : Z) (s : State) :
  (forall (p1 : string) (a : Response),
     profile_prompt w df = Val p1 ->
     answered w s api_key p1 a -> status_code a <> 200 ->
     Post (gemini_request api_key
             ("Given this data profile:" +:+ LF +:+ "None" +:+ LF +:+
              "Suggest cleaning steps and apply them. Return python code for cleaning and a summary of changes."))
     ∈ log (snd (stages w api_key df total s))) /\
  (forall (r1 r2 : pyval) (n1 n2 : Z) (s1 s2 : State) (a : Response),
     stage1 w api_key df 1 total s = (Val (r1, n1), s1) ->
     stage2 w api_key r1 n1 total s1 = (Val (r2, n2), s2) ->
     answered w s2 api_key metrics_prompt a -> status_code a <> 200 ->
     Post (gemini_request api_key
             ("Given the data and metrics:" +:+ LF +:+ "None" +:+ LF +:+
              "Perform exploratory data analysis and highlight hidden patterns, outliers, or unusual trends."))
     ∈ log (snd (stages w api_key df total s))) /\
  cleaning_prompt w PNone <> cleaning_prompt w (PStr EmptyString) /\
  analysis_prompt w PNone <> analysis_prompt w (PStr EmptyString).
Proof.
  split; [|split; [|split; discriminate]].
  - intros p1 a Hp1 Ha Hne.
    eapply stages_keep_stage2.
    + rewrite (stage1_eq w api_key df 1 total p1 s Hp1).
      rewrite (call_failed w api_key p1 _ a) by done. reflexivity.
    + rewrite stage2_eq. apply shown_elem.
      apply (call_has_post w api_key (cleaning_prompt w PNone)).
  - intros r1 r2 n1 n2 s1 s2 a H1 H2 Ha Hne.
    eapply stages_keep_stage4; [exact H1 | exact H2 | |].
    + rewrite stage3_eq.
      rewrite (call_failed w api_key metrics_prompt _ a) by done. reflexivity.
    + rewrite stage4_eq. apply shown_elem.
      apply (call_has_post w api_key (analysis_prompt w PNone)).
Qed.

Lemma C10_witness :
  Post (gemini_request "secret"
          ("Given this data profile:" +:+ LF +:+ "None" +:+ LF +:+
           "Suggest cleaning steps and apply them. Return python code for cleaning and a summary of changes."))
  ∈ log (snd (stages world_stage1_fails "secret" (frame_ab []) 6 init)) /\
  Post (gemini_request "secret"
          ("Given the data and metrics:" +:+ LF +:+ "None" +:+ LF +:+
           "Perform exploratory data analysis and highlight hidden patterns, outliers, or unusual trends."))
  ∈ log (snd (stages world_stage3_fails "secret" (frame_ab []) 6 init)).
Proof.
  split.
  - destruct (C10_refused_result_is_embedded_as_None world_stage1_fails
                "secret" (frame_ab []) 6 init) as [H _].
    eapply (H _ failed_response); [reflexivity | reflexivity | discriminate].
  - destruct (C10_refused_result_is_embedded_as_None world_stage3_fails
                "secret" (frame_ab []) 6 init) as (_ & H & _).
    eapply (H _ _ _ _ _ _ failed_response);
      [reflexivity | reflexivity | reflexivity | discriminate].
Defined.

(** ** C2: which prompts carry the previous result *)

Lemma shown_posts (label : string) (step : Z) (x : result pyval * State) :
  posts (log (snd (shown label step x))) = posts (log (snd x)).
Proof.
  destruct x as [[v|e] s]; [|done]. cbn. rewrite posts_app. cbn.
  by rewrite app_nil_r.
Qed.

Lemma shown_call_posts (w : World) (api_key prompt label : string) (step : Z)
    (s : State) (es : list event) :
  posts es = [] ->
  posts (log (snd (shown label step
                     (call_gemini_api w api_key prompt (after s es))))) =
  posts (log s) ++ [gemini_request api_key prompt].
Proof.
  intros Hes. rewrite shown_posts.
  destruct (call_posts w api_key prompt (after s es)) as [-> _]. cbn.
  by rewrite posts_app, Hes, app_nil_r.
Qed.

Lemma stages_posts (w : World) (api_key : string) (df : DataFrame) (total : Z)
    (s s' : State) (r : Results) (n : Z) :
  stages w api_key df total s = (Val (r, n), s') ->
  exists p1 : string,
    profile_prompt w df = Val p1 /\
    posts (log s') =
      posts (log s) ++
      [gemini_request api_key p1;
       gemini_request api_key (cleaning_prompt w (profile_result r));
       gemini_request api_key metrics_prompt;
       gemini_request api_key (analysis_prompt w (metrics_result r));
       gemini_request api_key insights_prompt].
Proof.
  rewrite stages_eq.
  destruct (profile_prompt w df) as [p1|e] eqn:Hp1;
    [|by rewrite (stage1_raise w api_key df 1 total e s Hp1)].
  pose proof (shown_call_posts w api_key p1 "**Profile Result:**" 1 s
                [step_info 1 "Profiling Data..." total; Dataframe (head 10 df)]
                eq_refl) as H1.
  rewrite <- (stage1_eq w api_key df 1 total p1 s Hp1) in H1.
  destruct (stage1 _ _ _ _ _ _) as [[[r1 n1]|?] s1]; [|done]. cbn in H1.
  pose proof (shown_call_posts w api_key (cleaning_prompt w r1)
                "**Cleaning Steps:**" n1 s1
                [step_info n1 "Data Cleaning..." total] eq_refl) as H2.
  rewrite <- stage2_eq in H2.
  destruct (stage2 _ _ _ _ _ _) as [[[r2 n2]|?] s2]; [|done]. cbn in H2.
  pose proof (shown_call_posts w api_key metrics_prompt
                "**Key Metrics & Features:**" n2 s2
                [step_info n2 "Calculating Metrics and Engineering Features..."
                   total] eq_refl) as H3.
  rewrite <- stage3_eq in H3.
  destruct (stage3 _ _ _ _ _) as [[[r3 n3]|?] s3]; [|done]. cbn in H3.
  pose proof (shown_call_posts w api_key (analysis_prompt w r3)
                "**Hidden Patterns:**" n3 s3
                [step_info n3 "Finding Hidden Patterns & Analysis..." total]
                eq_refl) as H4.
  rewrite <- stage4_eq in H4.
  destruct (stage4 _ _ _ _ _ _) as [[[r4 n4]|?] s4]; [|done]. cbn in H4.
  pose proof (shown_call_posts w api_key insights_prompt
                "**Actionable Insights:**" n4 s4
                [step_info n4 "Generating Insights & Recommendations..." total]
                eq_refl) as H5.
  rewrite <- stage5_eq in H5.
  destruct (stage5 _ _ _ _ _) as [[[r5 n5]|?] s5]; [|done]. cbn in H5.
  intros [= <- <- <-]. exists p1. split; [done|]. cbn.
  rewrite H5, H4, H3, H2, H1, <- !app_assoc. reflexivity.
Qed.

(** C2, as amended: the prompts of stages 2 and 4 contain the text of the
    result of stages 1 and 3, unchanged (for a string, the string itself);
    and in a run of the five stages the requests carry, in order, the
    stage-1 prompt, the stage-2 prompt built from the profile, the fixed
    metrics prompt, the stage-4 prompt built from the metrics and the fixed
    insights prompt. *)
Theorem C2_stage2_and_stage4_embed_previous_result (w : World)
    (api_key : string) (df : DataFrame) (total : Z) (s : State) :
  (forall r : pyval, contains (cleaning_prompt w r) (py_str w r)) /\
  (forall r : pyval, contains (analysis_prompt w r) (py_str w r)) /\
  (forall t : string, py_str w (PStr t) = t) /\
  (forall (r : Results) (n : Z) (s' : State),
     stages w api_key df total s = (Val (r, n), s') ->
     exists p1 : string,
       profile_prompt w df = Val p1 /\
       posts (log s') =
         posts (log s) ++
         [gemini_request api_key p1;
          gemini_request api_key (cleaning_prompt w (profile_result r));
          gemini_request api_key metrics_prompt;
          gemini_request api_key (analysis_prompt w (metrics_result r));
          gemini_request api_key insights_prompt]).
Proof.
  split; [intros r; apply contains_app_r, contains_mid|].
  split; [intros r; apply contains_app_r, contains_mid|].
  split; [done|].
  intros r n s' Hrun. by apply (stages_posts w api_key df total s s' r n).
Qed.

Lemma C2_witness :
  contains (cleaning_prompt world_ok (PStr "Revenue is flat.")) "Revenue is flat." /\
  exists (r : Results) (s' : State),
    stages world_ok "secret" (frame_ab []) 6 init = (Val (r, 6), s') /\
    posts (log s') !! 3%nat =
      Some (gemini_request "secret" (analysis_prompt world_ok (metrics_result r))).
Proof.
  destruct (C2_stage2_and_stage4_embed_previous_result world_ok "secret"
              (frame_ab []) 6 init) as (H2 & _ & _ & Hrun).
  split; [apply (H2 (PStr "Revenue is flat."))|].
  eexists _, _. split; [vm_compute; reflexivity|].
  destruct (Hrun _ _ _ ltac:(vm_compute; reflexivity)) as (p1 & _ & Hq).
  rewrite Hq. reflexivity.
Defined.

(** C2 as stated fails at stages 3 and 5: in a run where every call is
    answered with [Revenue is flat.], the prompts sent by stages 3 and 5 do
    not contain the results of stages 2 and 4. *)
Lemma C2_counterexample :
  exists (r : Results) (s' : State),
    stages world_ok "secret" (frame_ab []) 6 init = (Val (r, 6), s') /\
    cleaning_result r = PStr "Revenue is flat." /\
    posts (log s') !! 2%nat = Some (gemini_request "secret" metrics_prompt) /\
    ~ contains metrics_prompt "Revenue is flat." /\
    analysis_result r = PStr "Revenue is flat." /\
    posts (log s') !! 4%nat = Some (gemini_request "secret" insights_prompt) /\
    ~ contains insights_prompt "Revenue is flat.".
Proof.
  eexists _, _. split; [vm_compute; reflexivity|].
  repeat split; try (vm_compute; reflexivity).
  - intros H%containsb_contains. vm_compute in H. discriminate H.
  - intros H%containsb_contains. vm_compute in H. discriminate H.
Qed.

(** ** C7: the stage-1 prompt of the two-column table *)

(** C7: for the table with columns a, b whose first two rows are 1,2 and
    3,4 (whatever rows follow), on either platform, the stage-1 prompt is
    built without an exception; it contains [a,b], the lines [1,2] and
    [3,4], and the whole CSV text of the first two rows under their header;
    and stage 1 sends a request with that prompt. *)
Theorem C7_profile_prompt_of_frame_ab (w : World)
    (more : list (list pyval)) :
  exists p : string,
    profile_prompt w (frame_ab more) = Val p /\
    contains p "a,b" /\ contains p "1,2" /\ contains p "3,4" /\
    to_csv w (head 2 (frame_ab more)) =
      "a,b" +:+ linesep w +:+ "1,2" +:+ linesep w +:+ "3,4" +:+ linesep w /\
    contains p (to_csv w (head 2 (frame_ab more))) /\
    (forall (api_key : string) (step total : Z) (s : State),
       Post (gemini_request api_key p)
       ∈ log (snd (stage1 w api_key (frame_ab more) step total s))).
Proof.
  assert (Hcsv : to_csv w (head 2 (frame_ab more)) =
            "a,b" +:+ linesep w +:+ "1,2" +:+ linesep w +:+ "3,4" +:+ linesep w).
  { unfold to_csv, linesep. destruct (platform w); vm_compute; reflexivity. }
  eexists. split; [reflexivity|]. cbn [mbind result_bind].
  set (tail := LF +:+ LF +:+ _). rewrite Hcsv.
  assert (Hbody : forall x, contains ("a,b" +:+ linesep w +:+ "1,2" +:+
                     linesep w +:+ "3,4" +:+ linesep w) x ->
            contains ("You are an expert data analyst. Here are the top 2 rows:"
                      +:+ LF +:+ ("a,b" +:+ linesep w +:+ "1,2" +:+ linesep w
                                  +:+ "3,4" +:+ linesep w) +:+ tail) x).
  { intros x Hx. rewrite <- append_assoc.
    change (contains (("You are an expert data analyst. Here are the top 2 rows:"
              +:+ LF) +:+ (("a,b" +:+ linesep w +:+ "1,2" +:+ linesep w +:+
              "3,4" +:+ linesep w) +:+ tail)) x) .
    by apply contains_app_r, contains_app_l. }
  split. { apply Hbody. by exists EmptyString, (linesep w +:+ "1,2" +:+
             linesep w +:+ "3,4" +:+ linesep w). }
  split. { apply Hbody. apply (contains_app_r ("a,b" +:+ linesep w)).
           by exists EmptyString, (linesep w +:+ "3,4" +:+ linesep w). }
  split. { apply Hbody.
           exists ("a,b" +:+ linesep w +:+ "1,2" +:+ linesep w), (linesep w).
           by rewrite !append_assoc. }
  split; [reflexivity|].
  split. { apply Hbody. exists EmptyString, EmptyString.
           by rewrite append_nil_r. }
  intros api_key step total s.
  erewrite stage1_eq; [|reflexivity]. apply shown_elem.
  cbn [mbind result_bind]. fold tail. rewrite Hcsv. apply call_has_post.
Qed.

(** ** C6: when the pipeline can start *)

Lemma run_gate_closed (w : World) (i : Inputs) :
  api_key i = EmptyString \/ uploaded_file i = None ->
  exists (title caption : string) (intro : pyval),
    run w i =
    (Val tt,
     {| log := [Title title; Write intro;
                Warning "Please enter your Gemini API key and upload a dataset to proceed.";
                Markdown "---"; Caption caption];
        calls := 0 |}).
Proof.
  destruct i as [k f b]. cbn [api_key uploaded_file].
  intros [-> | ->]; [|destruct k]; by eexists _, _, _.
Qed.

Lemma run_button_not_pressed (w : World) (i : Inputs) :
  button i = false ->
  forall e : event, e ∈ log (snd (run w i)) -> pipeline_event e = false.
Proof.
  destruct i as [k f b]. cbn [button]. intros ->.
  apply Forall_forall. destruct k, f; cbn; repeat constructor.
Qed.

(** C6: when the credential is empty or no file is uploaded, the script
    ends normally without sending a request and without any event of the
    pipeline: all it shows is the title, the introduction, the warning, the
    rule and the caption; and any event of the pipeline, or any request, in
    a run means that the credential was not empty, a file was uploaded and
    the button was pressed. *)
Theorem C6_pipeline_is_gated (w : World) (i : Inputs) :
  (api_key i = EmptyString \/ uploaded_file i = None ->
   fst (run w i) = Val tt /\
   calls (snd (run w i)) = 0%nat /\
   posts (log (snd (run w i))) = [] /\
   (forall e : event, e ∈ log (snd (run w i)) -> pipeline_event e = false) /\
   exists (title caption : string) (intro : pyval),
     log (snd (run w i)) =
     [Title title; Write intro;
      Warning "Please enter your Gemini API key and upload a dataset to proceed.";
      Markdown "---"; Caption caption]) /\
  (forall e : event,
     e ∈ log (snd (run w i)) -> pipeline_event e = true ->
     api_key i <> EmptyString /\ uploaded_file i <> None /\ button i = true) /\
  (calls (snd (run w i)) <> 0%nat ->
   api_key i <> EmptyString /\ uploaded_file i <> None /\ button i = true).
Proof.
  split; [|split].
  - intros Hclosed.
    destruct (run_gate_closed w i Hclosed) as (title & caption & intro & ->).
    cbn [fst snd log calls]. repeat split.
    + apply Forall_forall. repeat constructor.
    + by exists title, caption, intro.
  - intros e He Hpipe.
    destruct (button i) eqn:Hb.
    + destruct (api_key i) eqn:Hk, (uploaded_file i) eqn:Hf; try done;
        destruct (run_gate_closed w i) as (title & caption & intro & Hrun);
        try (rewrite Hk; by left); try (rewrite Hf; by right);
        rewrite Hrun in He; cbn in He;
        apply (proj1 (Forall_forall (fun e => pipeline_event e = false) _))
          with (x := e) in He; try congruence; repeat constructor.
    + rewrite (run_button_not_pressed w i Hb e He) in Hpipe. discriminate.
  - intros Hcalls.
    destruct i as [k f b]. cbn [api_key uploaded_file button].
    destruct k as [|c k]; [by destruct Hcalls|].
    destruct f as [f|]; [|by destruct Hcalls].
    destruct b; [done|]. by destruct Hcalls.
Qed.

Lemma C6_witness :
  (api_key inputs_without_key = EmptyString \/
   uploaded_file inputs_without_key = None) /\
  fst (run world_ok inputs_without_key) = Val tt /\
  calls (snd (run world_ok inputs_without_key)) = 0%nat /\
  Warning "Please enter your Gemini API key and upload a dataset to proceed."
  ∈ log (snd (run world_ok inputs_without_key)).
Proof.
  assert (H : api_key inputs_without_key = EmptyString \/
              uploaded_file inputs_without_key = None) by (left; reflexivity).
  split; [exact H|].
  destruct (C6_pipeline_is_gated world_ok inputs_without_key) as [Hgate _].
  destruct (Hgate H) as (Hret & Hcalls & _ & _ & title & caption & intro & Hlog).
  split; [exact Hret|]. split; [exact Hcalls|].
  rewrite Hlog. apply list_elem_of_further, list_elem_of_further, list_elem_of_here.
Defined.

(** ** C9: what the run reads of the dataset *)

Lemma head_agree (n : nat) (df1 df2 : DataFrame) :
  columns df1 = columns df2 ->
  firstn n (rows df1) = firstn n (rows df2) ->
  head n df1 = head n df2.
Proof. intros Hc Hr. unfold head. by rewrite Hc, Hr. Qed.

Lemma firstn_2_of_10 {A} (l1 l2 : list A) :
  firstn 10 l1 = firstn 10 l2 -> firstn 2 l1 = firstn 2 l2.
Proof.
  intros H.
  change 2%nat with (Nat.min 2 10). rewrite <- !firstn_firstn. by rewrite H.
Qed.

Lemma profile_prompt_agree (w : World) (df1 df2 : DataFrame) :
  columns df1 = columns df2 ->
  firstn 2 (rows df1) = firstn 2 (rows df2) ->
  profile_prompt w df1 = profile_prompt w df2.
Proof.
  intros Hc Hr. unfold profile_prompt.
  by rewrite Hc, (head_agree 2 df1 df2 Hc Hr).
Qed.

Lemma stage1_agree (w : World) (api_key : string) (df1 df2 : DataFrame)
    (step total : Z) :
  columns df1 = columns df2 ->
  firstn 10 (rows df1) = firstn 10 (rows df2) ->
  stage1 w api_key df1 step total = stage1 w api_key df2 step total.
Proof.
  intros Hc Hr. unfold stage1.
  by rewrite (head_agree 10 df1 df2 Hc Hr),
    (profile_prompt_agree w df1 df2 Hc (firstn_2_of_10 _ _ Hr)).
Qed.

Lemma stages_agree (w : World) (api_key : string) (df1 df2 : DataFrame)
    (total : Z) :
  columns df1 = columns df2 ->
  firstn 10 (rows df1) = firstn 10 (rows df2) ->
  stages w api_key df1 total = stages w api_key df2 total.
Proof.
  intros Hc Hr. unfold stages. cbv zeta.
  by rewrite (stage1_agree w api_key df1 df2 1 total Hc Hr).
Qed.

(** The run of the button, once pandas has loaded [df]. *)
Lemma generate_report_with_frame (w : World) (api_key : string)
    (f : UploadedFile) (df : DataFrame) (s : State) :
  generate_report (with_frame w df) api_key f s =
  (stages w api_key df 6 ≫= λ '(r, step), report_step w r step 6) s.
Proof.
  unfold generate_report, read_file. cbn [read_csv read_excel with_frame].
  destruct (String.eqb _ _); reflexivity.
Qed.

Lemma run_agree (w : World) (df1 df2 : DataFrame) (i : Inputs) :
  columns df1 = columns df2 ->
  firstn 10 (rows df1) = firstn 10 (rows df2) ->
  run (with_frame w df1) i = run (with_frame w df2) i.
Proof.
  intros Hc Hr. unfold run, main.
  destruct i as [[|c k] [f|] b]; cbn [api_key uploaded_file button str_truthy];
    try reflexivity.
  destruct b; [|reflexivity].
  rewrite bind_eq, emit_eq, bind_eq, emit_eq.
  rewrite (bind_eq (_ ≫= _)). rewrite (bind_eq (emit _)), emit_eq.
  rewrite generate_report_with_frame. symmetry.
  rewrite bind_eq, emit_eq, bind_eq, emit_eq.
  rewrite (bind_eq (_ ≫= _)). rewrite (bind_eq (emit _)), emit_eq.
  rewrite generate_report_with_frame.
  by rewrite (stages_agree w (String c k) df1 df2 6 Hc Hr).
Qed.

(** C9: the run depends on the dataset only through its column names and
    its first rows: the stage-1 prompt is fixed by the column names and the
    first two rows, the preview by the column names and the first ten rows,
    and two datasets that agree on the column names and on the first ten
    rows give the same five stages and the same run of the script (the same
    events on screen, the same requests, the same outcome).  The script has
    no operation that changes or stores the dataset. *)
Theorem C9_run_reads_columns_and_first_rows (w : World)
    (df1 df2 : DataFrame) :
  columns df1 = columns df2 ->
  (firstn 2 (rows df1) = firstn 2 (rows df2) ->
   profile_prompt w df1 = profile_prompt w df2) /\
  (firstn 10 (rows df1) = firstn 10 (rows df2) ->
   head 10 df1 = head 10 df2 /\
   (forall (api_key : string) (total : Z),
      stages w api_key df1 total = stages w api_key df2 total) /\
   (forall i : Inputs, run (with_frame w df1) i = run (with_frame w df2) i)).
Proof.
  intros Hc. split.
  - intros Hr. by apply profile_prompt_agree.
  - intros Hr. split; [by apply head_agree|]. split.
    + intros api_key total. by apply stages_agree.
    + intros i. by apply run_agree.
Qed.

Lemma C9_witness :
  columns frame_long = columns frame_long' /\
  firstn 10 (rows frame_long) = firstn 10 (rows frame_long') /\
  rows frame_long <> rows frame_long' /\
  run (with_frame world_ok frame_long) sample_inputs =
  run (with_frame world_ok frame_long') sample_inputs.
Proof.
  split; [reflexivity|]. split; [reflexivity|]. split; [discriminate|].
  destruct (C9_run_reads_columns_and_first_rows world_ok frame_long frame_long'
              eq_refl) as [_ H].
  destruct (H eq_refl) as (_ & _ & Hrun). apply Hrun.
Defined.

(** ** C1: the assembled report *)

(** With five strings the report is the five labelled sections, each
    closed by a blank line. *)
Lemma full_report_of_strings (p c m a i : string) :
  full_report {| profile_result := PStr p; cleaning_result := PStr c;
                 metrics_result := PStr m; analysis_result := PStr a;
                 insights_result := PStr i |} =
  Val ("DATA PROFILE:" +:+ LF +:+ p +:+ LF +:+ LF +:+
       "DATA CLEANING STEPS:" +:+ LF +:+ c +:+ LF +:+ LF +:+
       "KEY METRICS & FEATURES:" +:+ LF +:+ m +:+ LF +:+ LF +:+
       "HIDDEN PATTERNS & ANALYSIS:" +:+ LF +:+ a +:+ LF +:+ LF +:+
       "ACTIONABLE INSIGHTS & RECOMMENDATIONS:" +:+ LF +:+ i +:+ LF +:+ LF).
Proof.
  unfold full_report. cbn [profile_result cleaning_result metrics_result
    analysis_result insights_result str_add mbind result_bind].
  f_equal. rewrite !append_assoc. reflexivity.
Qed.

(** With a result that is not a string the concatenation raises. *)
Lemma full_report_needs_strings (r : Results) :
  is_str (profile_result r) && is_str (cleaning_result r) &&
  is_str (metrics_result r) && is_str (analysis_result r) &&
  is_str (insights_result r) = false ->
  full_report r = Raise TypeError.
Proof.
  destruct r as [p c m a i]. unfold full_report.
  cbn [profile_result cleaning_result metrics_result analysis_result
       insights_result].
  destruct p; try reflexivity. destruct c; try reflexivity.
  destruct m; try reflexivity. destruct a; try reflexivity.
  destruct i; try reflexivity. discriminate.
Qed.

Lemma report_step_raises (w : World) (r : Results) (step total : Z)
    (s : State) :
  full_report r = Raise TypeError ->
  report_step w r step total s =
  (Raise TypeError, after s [step_info step "Generating PDF Report..." total]).
Proof.
  intros Hr. unfold report_step.
  rewrite bind_eq, progress_step_eq, bind_eq. unfold lift. by rewrite Hr.
Qed.

(** C1 fails on the code: in the run where the first call is refused (status
    500) and the four others are answered, all five requests are sent, the
    results are [None] and four strings, and the assembly of the report
    raises [TypeError]; the last thing on screen is the progress message of
    step 6, and no report is shown or offered. *)
Theorem C1_assembly_raises_after_refused_stage :
  fst (run world_stage1_fails sample_inputs) = Raise TypeError /\
  length (posts (log (snd (run world_stage1_fails sample_inputs)))) = 5%nat /\
  last (log (snd (run world_stage1_fails sample_inputs))) =
    Some (Info "Step 6/6: Generating PDF Report...") /\
  full_report {| profile_result := PNone;
                 cleaning_result := PStr "Revenue is flat.";
                 metrics_result := PStr "Revenue is flat.";
                 analysis_result := PStr "Revenue is flat.";
                 insights_result := PStr "Revenue is flat." |} =
    Raise TypeError.
Proof. repeat split; vm_compute; reflexivity. Qed.

(** ** Splitting and joining *)

Lemma split_nonempty (c : ascii) (s : string) : split c s <> [].
Proof.
  destruct s as [|a s]; [done|]. cbn [split].
  destruct (Ascii.eqb a c); [done|]. by destruct (split c s).
Qed.

Lemma split_join (c : ascii) (s : string) :
  join (String c EmptyString) (split c s) = s.
Proof.
  induction s as [|a s IH]; [reflexivity|]. cbn [split].
  pose proof (split_nonempty c s) as Hs.
  destruct (Ascii.eqb_spec a c) as [->|Hne].
  - destruct (split c s) as [|h t]; [done|].
    change (String c (join (String c EmptyString) (h :: t)) = String c s).
    by rewrite IH.
  - destruct (split c s) as [|h t]; [done|].
    rewrite <- IH. by destruct t.
Qed.

Lemma split_no_sep (c : ascii) (s : string) :
  Forall (fun l => str_exists (Ascii.eqb c) l = false) (split c s).
Proof.
  induction s as [|a s IH]; [by repeat constructor|]. cbn [split].
  pose proof (split_nonempty c s) as Hs.
  destruct (Ascii.eqb_spec a c) as [->|Hne].
  - by constructor.
  - destruct (split c s) as [|h t]; [done|].
    inversion IH as [|? ? Hh Ht]; subst. constructor; [|done].
    cbn [str_exists]. rewrite Hh.
    destruct (Ascii.eqb_spec c a); [congruence|done].
Qed.

Lemma join_snoc (sep : string) (l : list string) (x : string) :
  join sep (l ++ [x]) =
  match l with
  | [] => x
  | _ => join sep l +:+ sep +:+ x
  end.
Proof.
  induction l as [|h t IH]; [reflexivity|].
  destruct t as [|h' t]; [reflexivity|].
  change (h +:+ sep +:+ join sep ((h' :: t) ++ [x]) =
          (h +:+ sep +:+ join sep (h' :: t)) +:+ sep +:+ x).
  rewrite IH. by rewrite !append_assoc.
Qed.

Lemma last_snoc_split (c : ascii) (s : string) :
  exists l : list string,
    split c s = l ++ [List.last (split c s) EmptyString].
Proof.
  pose proof (split_nonempty c s) as Hs.
  exists (removelast (split c s)). by apply app_removelast_last.
Qed.

Lemma str_exists_append (p : ascii -> bool) (a b : string) :
  str_exists p (a +:+ b) = str_exists p a || str_exists p b.
Proof.
  induction a as [|x a IH]; [reflexivity|].
  change (p x || str_exists p (a +:+ b) = (p x || str_exists p a) || str_exists p b).
  by rewrite IH, orb_assoc.
Qed.

Lemma str_exists_sep (c : ascii) (pre x : string) :
  str_exists (Ascii.eqb c) (pre +:+ String c x) = true.
Proof.
  rewrite str_exists_append. cbn [str_exists]. rewrite Ascii.eqb_refl.
  by rewrite orb_true_r.
Qed.

Lemma last_sep_unique (c : ascii) (pre pre' x y : string) :
  str_exists (Ascii.eqb c) x = false ->
  str_exists (Ascii.eqb c) y = false ->
  pre +:+ String c x = pre' +:+ String c y ->
  x = y.
Proof.
  intros Hx Hy. revert pre'.
  induction pre as [|a p IH]; intros [|a' p'] H.
  - by injection H.
  - change (String c x = String a' (p' +:+ String c y)) in H.
    injection H as _ ->. by rewrite str_exists_sep in Hx.
  - change (String a (p +:+ String c x) = String c y) in H.
    injection H as _ <-. by rewrite str_exists_sep in Hy.
  - change (String a (p +:+ String c x) = String a' (p' +:+ String c y)) in H.
    injection H as _ H. by apply (IH p').
Qed.

Lemma last_split_suffix (c : ascii) (s : string) :
  str_exists (Ascii.eqb c) (List.last (split c s) EmptyString) = false /\
  (s = List.last (split c s) EmptyString \/
   exists pre, s = pre +:+ String c (List.last (split c s) EmptyString)).
Proof.
  destruct (last_snoc_split c s) as [l Hl].
  set (x := List.last (split c s) EmptyString) in *.
  pose proof (split_no_sep c s) as Hno. rewrite Hl in Hno.
  apply Forall_app in Hno as [_ Hx]. inversion Hx as [|? ? Hx' _]; subst.
  split; [exact Hx'|].
  pose proof (split_join c s) as Hj. rewrite Hl, join_snoc in Hj.
  destruct l as [|h t]; [by left|]. right.
  exists (join (String c EmptyString) (h :: t)). by rewrite <- Hj.
Qed.

Lemma last_split_iff (c : ascii) (s x : string) :
  str_exists (Ascii.eqb c) x = false ->
  List.last (split c s) EmptyString = x <->
  s = x \/ exists pre, s = pre +:+ String c x.
Proof.
  intros Hx. destruct (last_split_suffix c s) as [Hy Hs]. split.
  - by intros <-.
  - intros [->|[pre ->]].
    + destruct Hs as [<-|[pre' H]]; [done|].
      rewrite H, str_exists_sep in Hx. discriminate Hx.
    + destruct Hs as [H|[pre' H]].
      * rewrite <- H, str_exists_sep in Hy. discriminate Hy.
      * symmetry. by apply (last_sep_unique c pre pre' x _ Hx Hy).
Qed.

(** ** Reading the file *)

Lemma read_file_eq (w : World) (f : UploadedFile) (s : State) :
  read_file w f s =
  match (if String.eqb (List.last (split "."%char (name f)) EmptyString) "csv"
         then read_csv w f else read_excel w f) with
  | Some df => (Val df, s)
  | None => (Raise ParserError, s)
  end.
Proof.
  unfold read_file. cbv zeta.
  destruct (String.eqb _ _); [by destruct (read_csv w f)|].
  by destruct (read_excel w f).
Qed.

Lemma read_file_by_name (w : World) (f : UploadedFile)
    (s : State) :
  (name f = "csv" \/ (exists pre, name f = pre +:+ ".csv") ->
   read_file w f s =
   match read_csv w f with
   | Some df => (Val df, s)
   | None => (Raise ParserError, s)
   end) /\
  (name f <> "csv" -> (forall pre, name f <> pre +:+ ".csv") ->
   read_file w f s =
   match read_excel w f with
   | Some df => (Val df, s)
   | None => (Raise ParserError, s)
   end).
Proof.
  pose proof (last_split_iff "."%char (name f) "csv" eq_refl) as Hext.
  rewrite read_file_eq. split.
  - intros H. apply Hext in H. by rewrite H.
  - intros Hne Hsuf.
    destruct (String.eqb_spec (List.last (split "."%char (name f)) EmptyString)
                "csv") as [Heq|]; [|done].
    apply Hext in Heq as [?|[pre ?]]; [done|]. by destruct (Hsuf pre).
Qed.

(** X1: the uploaded file is read with [pd.read_csv] exactly when its name
    is csv or ends in .csv (the text after the last dot is csv, in lower
    case), and with [pd.read_excel] for every other name; what pandas loads
    is returned, and a failure of pandas is raised, with nothing shown. *)
Theorem X1_file_type_by_last_extension (w : World) (f : UploadedFile)
    (s : State) :
  (csv_name (name f) ->
   read_file w f s =
   match read_csv w f with
   | Some df => (Val df, s)
   | None => (Raise ParserError, s)
   end) /\
  (~ csv_name (name f) ->
   read_file w f s =
   match read_excel w f with
   | Some df => (Val df, s)
   | None => (Raise ParserError, s)
   end).
Proof.
  destruct (read_file_by_name w f s) as [Hcsv Hxls]. split; [exact Hcsv|].
  intros Hn. apply Hxls.
  - intros Heq. apply Hn. by left.
  - intros pre Heq. apply Hn. right. by exists pre.
Qed.

(** ** The lines handed to FPDF *)

(** X5: [create_pdf] hands FPDF the lines of the report: a non-empty list
    of texts without a newline which, joined by newlines, give the report
    back; it returns the buffer FPDF makes of them, or raises when FPDF
    does, and shows nothing. *)
Theorem X5_pdf_gets_the_lines_of_the_report (w : World) (report_text : string)
    (s : State) :
  exists lines : list string,
    lines <> [] /\
    join LF lines = report_text /\
    Forall (fun l => str_exists (Ascii.eqb "010"%char) l = false) lines /\
    create_pdf w report_text s =
    match fpdf w lines with
    | Some buffer => (Val buffer, s)
    | None => (Raise FPDFException, s)
    end.
Proof.
  exists (split "010"%char report_text).
  split; [apply split_nonempty|]. split; [apply split_join|].
  split; [apply split_no_sep|].
  unfold create_pdf. by destruct (fpdf w _).
Qed.

(** ** The report *)

(** X3: the report is assembled exactly when the five results are strings,
    and is then the five labelled sections in order, each followed by its
    result and a blank line; with any other result the assembly raises
    [TypeError]. *)
Theorem X3_report_needs_five_strings (r : Results) :
  match profile_result r, cleaning_result r, metrics_result r,
        analysis_result r, insights_result r with
  | PStr p, PStr c, PStr m, PStr a, PStr i =>
      full_report r =
      Val ("DATA PROFILE:" +:+ LF +:+ p +:+ LF +:+ LF +:+
           "DATA CLEANING STEPS:" +:+ LF +:+ c +:+ LF +:+ LF +:+
           "KEY METRICS & FEATURES:" +:+ LF +:+ m +:+ LF +:+ LF +:+
           "HIDDEN PATTERNS & ANALYSIS:" +:+ LF +:+ a +:+ LF +:+ LF +:+
           "ACTIONABLE INSIGHTS & RECOMMENDATIONS:" +:+ LF +:+ i +:+ LF +:+ LF)
  | _, _, _, _, _ => full_report r = Raise TypeError
  end.
Proof.
  destruct r as [p c m a i].
  cbn [profile_result cleaning_result metrics_result analysis_result
       insights_result].
  destruct p; try (by apply full_report_needs_strings).
  destruct c; try (by apply full_report_needs_strings).
  destruct m; try (by apply full_report_needs_strings).
  destruct a; try (by apply full_report_needs_strings).
  destruct i; try (by apply full_report_needs_strings).
  apply full_report_of_strings.
Qed.

(** ** The column labels *)

Lemma all_str_not_str (l : list pyval) (v : pyval) :
  v ∈ l -> is_str v = false -> all_str l = Raise TypeError.
Proof.
  intros Hin Hv. induction l as [|x l IH]; [by apply elem_of_nil in Hin|].
  apply elem_of_cons in Hin as [<-|Hin].
  - by destruct v.
  - destruct x; try reflexivity. cbn [all_str]. by rewrite (IH Hin).
Qed.

Lemma all_str_strings (l : list pyval) :
  (forall v, v ∈ l -> is_str v = true) ->
  exists ss : list string, all_str l = Val ss /\ l = PStr <$> ss.
Proof.
  induction l as [|x l IH]; intros H; [by exists []|].
  destruct IH as (ss & Hss & ->).
  { intros v Hv. apply H. by apply list_elem_of_further. }
  pose proof (H x (list_elem_of_here _ _)) as Hx.
  destruct x; try discriminate Hx.
  eexists (_ :: ss). cbn [all_str]. rewrite Hss. by split.
Qed.

(** X6: when a column label is not a string, the stages raise [TypeError]
    while the stage-1 prompt is built: the progress message and the preview
    are on screen and no request is sent.  When every label is a string the
    prompt is built, and contains the CSV text of the first two rows and
    the labels joined by a comma and a space. *)
Theorem X6_column_labels_must_be_strings (w : World) (api_key : string)
    (df : DataFrame) (total : Z) (s : State) :
  ((exists v, v ∈ columns df /\ is_str v = false) ->
   stages w api_key df total s =
   (Raise TypeError,
    after s [step_info 1 "Profiling Data..." total; Dataframe (head 10 df)])) /\
  ((forall v, v ∈ columns df -> is_str v = true) ->
   exists (names : list string) (p : string),
     columns df = PStr <$> names /\
     profile_prompt w df = Val p /\
     contains p (to_csv w (head 2 df)) /\
     contains p ("Column names: " +:+ join ", " names)).
Proof.
  split.
  - intros (v & Hin & Hv). rewrite stages_eq.
    rewrite (stage1_raise w api_key df 1 total TypeError); [done|].
    unfold profile_prompt, str_join. cbv zeta.
    by rewrite (all_str_not_str _ v Hin Hv).
  - intros Hall. destruct (all_str_strings _ Hall) as (names & Hnames & Hcols).
    exists names. eexists. split; [exact Hcols|].
    unfold profile_prompt, str_join. cbv zeta. rewrite Hnames.
    split; [reflexivity|]. cbn [mbind result_bind].
    split.
    { exists ("You are an expert data analyst. Here are the top 2 rows:" +:+ LF),
             (LF +:+ LF +:+ "Column names: " +:+ join ", " names +:+ LF +:+ LF +:+
              "Profile this data and guess the domain/use-case. Return the profile, types, missing values, and business context.").
      by rewrite !append_assoc. }
    exists ("You are an expert data analyst. Here are the top 2 rows:" +:+ LF +:+
            to_csv w (head 2 df) +:+ LF +:+ LF),
           (LF +:+ LF +:+
            "Profile this data and guess the domain/use-case. Return the profile, types, missing values, and business context.").
    by rewrite !append_assoc.
Qed.

(** ** The run after the button *)

Lemma run_pressed_eq (w : World) (c : ascii) (k : string) (f : UploadedFile) :
  run w (pressed (String c k) f) =
  match generate_report w (String c k) f
          (after init (page_top ++ [Success "API key and data file received!"]))
  with
  | (Val _, s) => (Val tt, after s page_bottom)
  | (Raise e, s) => (Raise e, s)
  end.
Proof.
  unfold run, main, pressed. cbn [api_key uploaded_file button str_truthy].
  rewrite bind_eq, emit_eq, bind_eq, emit_eq.
  rewrite (bind_eq (_ ≫= _)). rewrite (bind_eq (emit _)), emit_eq.
  rewrite !after_after. cbn [app].
  destruct (generate_report _ _ _ _) as [[[]|e] s]; [|done].
  by rewrite bind_eq, emit_eq, emit_eq, after_after.
Qed.

Lemma generate_report_eq (w : World) (k : string) (f : UploadedFile)
    (s : State) :
  generate_report w k f s =
  match read_file w f s with
  | (Raise e, s0) => (Raise e, s0)
  | (Val df, s0) =>
      match stages w k df 6 s0 with
      | (Raise e, s1) => (Raise e, s1)
      | (Val (r, n), s1) => report_step w r n 6 s1
      end
  end.
Proof.
  unfold generate_report. rewrite bind_eq.
  destruct (read_file w f s) as [[df|e] s0]; [|done].
  cbv zeta. rewrite bind_eq.
  by destruct (stages w k df 6 s0) as [[[r n]|e] s1].
Qed.

Lemma report_step_eq (w : World) (r : Results) (n total : Z) (s : State) :
  report_step w r n total s =
  match full_report r with
  | Raise e => (Raise e, after s [step_info n "Generating PDF Report..." total])
  | Val report =>
      match fpdf w (split "010"%char report) with
      | None => (Raise FPDFException,
                 after s [step_info n "Generating PDF Report..." total])
      | Some buffer =>
          (Val tt,
           after s [step_info n "Generating PDF Report..." total;
                    Success "Analysis Complete! Download your report below:";
                    DownloadButton "Download PDF Report" buffer
                      "data_analysis_report.pdf" "application/pdf";
                    Expander "Full Report"; Text report])
      end
  end.
Proof.
  unfold report_step. rewrite bind_eq, progress_step_eq, bind_eq.
  unfold lift at 1. destruct (full_report r) as [report|e]; [|done].
  rewrite bind_eq. unfold create_pdf.
  destruct (fpdf w _) as [buffer|]; [|done].
  cbn [mret M_ret ret].
  repeat (rewrite bind_eq, emit_eq). rewrite emit_eq.
  by rewrite !after_after.
Qed.

Lemma shown_call_text (w : World) (k prompt label t : string) (step : Z)
    (s : State) (es : list event) :
  answers_text w (calls s) k prompt t ->
  shown label step (call_gemini_api w k prompt (after s es)) =
  (Val (PStr t, step + 1),
   {| log := log s ++ es ++ [Post (gemini_request k prompt); Markdown label;
                             Write (PStr t); Sleep 1];
      calls := S (calls s) |}).
Proof.
  intros (a & j & Ha & H200 & Hj & Ht).
  rewrite (call_ok w k prompt (after s es) a j (PStr t)) by done.
  cbn [shown]. unfold after, sent. cbn [log calls]. f_equal. f_equal.
  by rewrite <- !app_assoc.
Qed.

Lemma stages_text (w : World) (k : string) (df : DataFrame) (total : Z)
    (s : State) (p1 t1 t2 t3 t4 t5 : string) :
  profile_prompt w df = Val p1 ->
  answers_text w (calls s) k p1 t1 ->
  answers_text w (1 + calls s) k (cleaning_prompt w (PStr t1)) t2 ->
  answers_text w (2 + calls s) k metrics_prompt t3 ->
  answers_text w (3 + calls s) k (analysis_prompt w (PStr t3)) t4 ->
  answers_text w (4 + calls s) k insights_prompt t5 ->
  stages w k df total s =
  (Val ({| profile_result := PStr t1; cleaning_result := PStr t2;
           metrics_result := PStr t3; analysis_result := PStr t4;
           insights_result := PStr t5 |}, 6),
   {| log := log s ++
        [step_info 1 "Profiling Data..." total; Dataframe (head 10 df);
         Post (gemini_request k p1);
         Markdown "**Profile Result:**"; Write (PStr t1); Sleep 1;
         step_info 2 "Data Cleaning..." total;
         Post (gemini_request k (cleaning_prompt w (PStr t1)));
         Markdown "**Cleaning Steps:**"; Write (PStr t2); Sleep 1;
         step_info 3 "Calculating Metrics and Engineering Features..." total;
         Post (gemini_request k metrics_prompt);
         Markdown "**Key Metrics & Features:**"; Write (PStr t3); Sleep 1;
         step_info 4 "Finding Hidden Patterns & Analysis..." total;
         Post (gemini_request k (analysis_prompt w (PStr t3)));
         Markdown "**Hidden Patterns:**"; Write (PStr t4); Sleep 1;
         step_info 5 "Generating Insights & Recommendations..." total;
         Post (gemini_request k insights_prompt);
         Markdown "**Actionable Insights:**"; Write (PStr t5); Sleep 1];
      calls := (5 + calls s)%nat |}).
Proof.
  intros Hp1 H1 H2 H3 H4 H5. rewrite stages_eq.
  rewrite (stage1_eq w k df 1 total p1 s Hp1).
  rewrite (shown_call_text w k p1 _ t1) by done.
  rewrite stage2_eq, (shown_call_text w k _ _ t2) by done.
  rewrite stage3_eq, (shown_call_text w k _ _ t3) by done.
  rewrite stage4_eq, (shown_call_text w k _ _ t4) by done.
  rewrite stage5_eq, (shown_call_text w k _ _ t5) by done.
  cbn [log calls]. f_equal. f_equal. by rewrite <- !app_assoc.
Qed.

(** X4: the run in which the file is read, the prompt of stage 1 is built
    and the five calls are answered with the texts t1 to t5 shows exactly
    the events below, in this order, with five requests.  When FPDF makes a
    document of the lines of the report, the run ends normally after the
    download button (carrying that document), the report panel and the
    footer; when FPDF raises, the run ends with that exception after the
    progress message of step 6. *)
Theorem X4_complete_run (w : World) (c : ascii) (k : string)
    (f : UploadedFile) (df : DataFrame) (p1 t1 t2 t3 t4 t5 : string) :
  (forall s, read_file w f s = (Val df, s)) ->
  profile_prompt w df = Val p1 ->
  answers_text w 0 (String c k) p1 t1 ->
  answers_text w 1 (String c k) (cleaning_prompt w (PStr t1)) t2 ->
  answers_text w 2 (String c k) metrics_prompt t3 ->
  answers_text w 3 (String c k) (analysis_prompt w (PStr t3)) t4 ->
  answers_text w 4 (String c k) insights_prompt t5 ->
  let report :=
    "DATA PROFILE:" +:+ LF +:+ t1 +:+ LF +:+ LF +:+
    "DATA CLEANING STEPS:" +:+ LF +:+ t2 +:+ LF +:+ LF +:+
    "KEY METRICS & FEATURES:" +:+ LF +:+ t3 +:+ LF +:+ LF +:+
    "HIDDEN PATTERNS & ANALYSIS:" +:+ LF +:+ t4 +:+ LF +:+ LF +:+
    "ACTIONABLE INSIGHTS & RECOMMENDATIONS:" +:+ LF +:+ t5 +:+ LF +:+ LF in
  let s5 :=
    {| log := page_top ++
        [Success "API key and data file received!";
         step_info 1 "Profiling Data..." 6; Dataframe (head 10 df);
         Post (gemini_request (String c k) p1);
         Markdown "**Profile Result:**"; Write (PStr t1); Sleep 1;
         step_info 2 "Data Cleaning..." 6;
         Post (gemini_request (String c k) (cleaning_prompt w (PStr t1)));
         Markdown "**Cleaning Steps:**"; Write (PStr t2); Sleep 1;
         step_info 3 "Calculating Metrics and Engineering Features..." 6;
         Post (gemini_request (String c k) metrics_prompt);
         Markdown "**Key Metrics & Features:**"; Write (PStr t3); Sleep 1;
         step_info 4 "Finding Hidden Patterns & Analysis..." 6;
         Post (gemini_request (String c k) (analysis_prompt w (PStr t3)));
         Markdown "**Hidden Patterns:**"; Write (PStr t4); Sleep 1;
         step_info 5 "Generating Insights & Recommendations..." 6;
         Post (gemini_request (String c k) insights_prompt);
         Markdown "**Actionable Insights:**"; Write (PStr t5); Sleep 1;
         step_info 6 "Generating PDF Report..." 6];
       calls := 5 |} in
  run w (pressed (String c k) f) =
  match fpdf w (split "010"%char report) with
  | Some buffer =>
      (Val tt,
       after s5
         ([Success "Analysis Complete! Download your report below:";
           DownloadButton "Download PDF Report" buffer
             "data_analysis_report.pdf" "application/pdf";
           Expander "Full Report"; Text report] ++ page_bottom))
  | None => (Raise FPDFException, s5)
  end.
Proof.
  intros Hread Hp1 H1 H2 H3 H4 H5 report s5.
  rewrite run_pressed_eq, generate_report_eq, Hread.
  rewrite (stages_text w (String c k) df 6 _ p1 t1 t2 t3 t4 t5) by done.
  rewrite report_step_eq, full_report_of_strings. fold report.
  destruct (fpdf w (split "010"%char report)) as [buffer|];
    unfold after, s5, page_top, page_bottom, init; cbn [log calls app];
    reflexivity.
Qed.

(** X2: when pandas cannot read the uploaded file (as CSV for a name that
    is csv or ends in .csv, as Excel otherwise), the run started by the
    button raises [ParserError] right after the first success message: no
    stage starts and no request is sent.  Without the button the same file
    is not read and the run ends normally. *)
Theorem X2_unreadable_file_aborts_the_run (w : World) (c : ascii) (k : string)
    (f : UploadedFile) :
  (csv_name (name f) /\ read_csv w f = None) \/
  (~ csv_name (name f) /\ read_excel w f = None) ->
  run w (pressed (String c k) f) =
    (Raise ParserError,
     {| log := page_top ++ [Success "API key and data file received!"];
        calls := 0 |}) /\
  run w {| api_key := String c k; uploaded_file := Some f; button := false |} =
    (Val tt,
     {| log := page_top ++ [Success "API key and data file received!"] ++
               page_bottom;
        calls := 0 |}).
Proof.
  intros H. split; [|reflexivity].
  rewrite run_pressed_eq, generate_report_eq.
  destruct (read_file_by_name w f
              (after init (page_top ++ [Success "API key and data file received!"])))
    as [Hcsv Hxls].
  destruct H as [[Hn Hr]|[Hn Hr]].
  - rewrite (Hcsv Hn), Hr. reflexivity.
  - rewrite Hxls, Hr; [reflexivity| |].
    + intros Heq. apply Hn. by left.
    + intros pre Heq. apply Hn. right. by exists pre.
Qed.

(** ** The requests of a run *)





(** ** Calls that raise, calls that are refused *)

Lemma call_raise_state (w : World) (k prompt : string) (s : State) (e : pyexc) :
  fst (call_gemini_api w k prompt s) = Raise e ->
  snd (call_gemini_api w k prompt s) = sent s (gemini_request k prompt).
Proof.
  rewrite call_gemini_api_eq. cbv zeta.
  destruct (post w (calls s) _) as [a|]; [|done].
  by destruct (Z.eqb (status_code a) 200).
Qed.

(** X8: an answer with status 200 never shows an error message, whatever
    its body; and the call raises [JSONDecodeError] when the body does not
    decode, [TypeError] when it decodes to something that is not an object,
    [KeyError] when the object has no candidates, and [IndexError] when the
    list of candidates is empty. *)
Theorem X8_malformed_answer_raises (w : World) (api_key prompt : string)
    (s : State) (a : Response) :
  answered w s api_key prompt a ->
  status_code a = 200 ->
  snd (call_gemini_api w api_key prompt s) =
    sent s (gemini_request api_key prompt) /\
  (json a = None ->
   fst (call_gemini_api w api_key prompt s) = Raise JSONDecodeError) /\
  (forall v : pyval, json a = Some v -> (forall d, v <> PDict d) ->
   fst (call_gemini_api w api_key prompt s) = Raise TypeError) /\
  (forall d : gmap string pyval,
     json a = Some (PDict d) -> d !! "candidates" = None ->
     fst (call_gemini_api w api_key prompt s) = Raise KeyError) /\
  (forall d : gmap string pyval,
     json a = Some (PDict d) -> d !! "candidates" = Some (PList []) ->
     fst (call_gemini_api w api_key prompt s) = Raise IndexError).
Proof.
  intros Ha H200. rewrite call_gemini_api_eq. cbv zeta.
  unfold answered in Ha. rewrite Ha, H200. cbn [Z.eqb Pos.eqb fst snd].
  unfold response_json. split; [done|].
  split; [by intros ->|].
  split; [intros v -> Hv; destruct v; try done; by destruct (Hv d)|].
  split; intros d -> Hd; cbn; by rewrite Hd.
Qed.

(** X9: when the call of stage 1 raises (the request fails, or the answer
    has status 200 and a body without a text part), the whole run ends with
    that exception: one request was sent, and neither an error message, a
    result, a later stage nor the footer is shown. *)
Theorem X9_exception_in_stage_1_aborts_the_run (w : World) (c : ascii)
    (k : string) (f : UploadedFile) (df : DataFrame) (p1 : string) (e : pyexc) :
  let s1 :=
    after init
      (page_top ++ [Success "API key and data file received!";
                    step_info 1 "Profiling Data..." 6; Dataframe (head 10 df)]) in
  (forall s, read_file w f s = (Val df, s)) ->
  profile_prompt w df = Val p1 ->
  fst (call_gemini_api w (String c k) p1 s1) = Raise e ->
  run w (pressed (String c k) f) =
  (Raise e, sent s1 (gemini_request (String c k) p1)).
Proof.
  intros s1 Hread Hp1 He.
  rewrite run_pressed_eq, generate_report_eq, Hread, stages_eq.
  rewrite (stage1_eq w (String c k) df 1 6 p1 _ Hp1), after_after.
  rewrite <- app_assoc. cbn [app]. fold s1.
  pose proof (call_raise_state w (String c k) p1 s1 e He) as Hs.
  destruct (call_gemini_api w (String c k) p1 s1) as [r s'].
  cbn [fst snd] in He, Hs. by subst.
Qed.

(** X10: each of the five stages, when its call is answered with a status
    other than 200, still completes: after its progress message (and, for
    stage 1, the preview) it sends its request, shows the error with the raw
    body, its heading and the value [None], pauses one second and counts
    the step. *)
Theorem X10_refused_stage_shows_error_and_None (w : World) (api_key : string)
    (total : Z) (s : State) (a : Response) :
  status_code a <> 200 ->
  let tail (step : Z) (name prompt label : string) (extra : list event) :=
    (Val (PNone, step + 1),
     {| log := log s ++ [step_info step name total] ++ extra ++
               [Post (gemini_request api_key prompt);
                Error ("Gemini API Error: " +:+ text a);
                Markdown label; Write PNone; Sleep 1];
        calls := S (calls s) |}) in
  (forall df step p,
     profile_prompt w df = Val p -> answered w s api_key p a ->
     stage1 w api_key df step total s =
     tail step "Profiling Data..." p "**Profile Result:**"
       [Dataframe (head 10 df)]) /\
  (forall r step,
     answered w s api_key (cleaning_prompt w r) a ->
     stage2 w api_key r step total s =
     tail step "Data Cleaning..." (cleaning_prompt w r) "**Cleaning Steps:**" []) /\
  (forall step,
     answered w s api_key metrics_prompt a ->
     stage3 w api_key step total s =
     tail step "Calculating Metrics and Engineering Features..." metrics_prompt
       "**Key Metrics & Features:**" []) /\
  (forall r step,
     answered w s api_key (analysis_prompt w r) a ->
     stage4 w api_key r step total s =
     tail step "Finding Hidden Patterns & Analysis..." (analysis_prompt w r)
       "**Hidden Patterns:**" []) /\
  (forall step,
     answered w s api_key insights_prompt a ->
     stage5 w api_key step total s =
     tail step "Generating Insights & Recommendations..." insights_prompt
       "**Actionable Insights:**" []).
Proof.
  intros Hne tail.
  assert (Hshown : forall label step prompt es,
            answered w s api_key prompt a ->
            shown label step (call_gemini_api w api_key prompt (after s es)) =
            (Val (PNone, step + 1),
             {| log := log s ++ es ++
                  [Post (gemini_request api_key prompt);
                   Error ("Gemini API Error: " +:+ text a);
                   Markdown label; Write PNone; Sleep 1];
                calls := S (calls s) |})).
  { intros label step prompt es Ha.
    rewrite (call_failed w api_key prompt (after s es) a) by done.
    unfold shown, after, sent. cbn [log calls]. f_equal. f_equal.
    by rewrite <- !app_assoc. }
  unfold tail. split; [intros df step p Hp Ha|].
  { rewrite (stage1_eq w api_key df step total p s Hp). by rewrite Hshown. }
  split; [intros r step Ha; rewrite stage2_eq; by rewrite Hshown|].
  split; [intros step Ha; rewrite stage3_eq; by rewrite Hshown|].
  split; [intros r step Ha; rewrite stage4_eq; by rewrite Hshown|].
  intros step Ha. rewrite stage5_eq. by rewrite Hshown.
Qed.

(** X11: when the five stages return and one of the results is not a
    string, the run ends with [TypeError] right after the progress message
    of step 6: no document is made, and neither the download button, the
    report panel nor the footer is shown. *)
Theorem X11_result_that_is_no_string_ends_the_run (w : World) (c : ascii)
    (k : string) (f : UploadedFile) (df : DataFrame) (r : Results) (n : Z)
    (s5 : State) :
  (forall s, read_file w f s = (Val df, s)) ->
  stages w (String c k) df 6
    (after init (page_top ++ [Success "API key and data file received!"])) =
    (Val (r, n), s5) ->
  is_str (profile_result r) && is_str (cleaning_result r) &&
  is_str (metrics_result r) && is_str (analysis_result r) &&
  is_str (insights_result r) = false ->
  run w (pressed (String c k) f) =
  (Raise TypeError, after s5 [step_info n "Generating PDF Report..." 6]).
Proof.
  intros Hread Hstages Hr.
  rewrite run_pressed_eq, generate_report_eq, Hread, Hstages.
  by rewrite (report_step_raises w r n 6 s5 (full_report_needs_strings r Hr)).
Qed.

(** ** The further properties on the sample data *)

Lemma sales_file_is_csv : csv_name (name sales_file).
Proof. right. by exists "sales". Qed.

Lemma world_ok_answers (n : nat) (k prompt : string) :
  answers_text world_ok n k prompt "Revenue is flat.".
Proof.
  exists (ok_response "Revenue is flat."), (gemini_body "Revenue is flat.").
  repeat split. apply gemini_body_text.
Qed.

Lemma X1_witness :
  csv_name (name sales_file) /\
  ~ csv_name "SALES.CSV" /\
  read_file world_ok sales_file init = (Val (frame_ab []), init) /\
  read_file world_ok {| name := "SALES.CSV"; content := [] |} init =
    (Raise ParserError, init).
Proof.
  assert (Hupper : ~ csv_name "SALES.CSV").
  { intros [H|[pre H]]; [discriminate H|].
    assert (Hc : containsb "SALES.CSV" ".csv" = true).
    { apply containsb_contains. exists pre, EmptyString.
      by rewrite append_nil_r. }
    vm_compute in Hc. discriminate Hc. }
  split; [exact sales_file_is_csv|]. split; [exact Hupper|]. split.
  - destruct (X1_file_type_by_last_extension world_ok sales_file init) as [H _].
    apply (H sales_file_is_csv).
  - destruct (X1_file_type_by_last_extension world_ok
                {| name := "SALES.CSV"; content := [] |} init) as [_ H].
    apply (H Hupper).
Defined.

Lemma X2_witness :
  ((csv_name (name sales_file) /\ read_csv world_unreadable sales_file = None) \/
   (~ csv_name (name sales_file) /\
    read_excel world_unreadable sales_file = None)) /\
  fst (run world_unreadable (pressed "secret" sales_file)) = Raise ParserError /\
  calls (snd (run world_unreadable (pressed "secret" sales_file))) = 0%nat.
Proof.
  assert (H : (csv_name (name sales_file) /\
               read_csv world_unreadable sales_file = None) \/
              (~ csv_name (name sales_file) /\
               read_excel world_unreadable sales_file = None)).
  { left. split; [exact sales_file_is_csv | reflexivity]. }
  split; [exact H|].
  destruct (X2_unreadable_file_aborts_the_run world_unreadable "s"%char "ecret"
              sales_file H) as [Hrun _].
  change (pressed "secret" sales_file)
    with (pressed (String "s"%char "ecret") sales_file).
  rewrite Hrun. split; reflexivity.
Defined.

Lemma X4_witness :
  fst (run world_ok (pressed "secret" sales_file)) = Val tt /\
  calls (snd (run world_ok (pressed "secret" sales_file))) = 5%nat.
Proof.
  pose proof (X4_complete_run world_ok "s"%char "ecret" sales_file (frame_ab [])
                _ "Revenue is flat." "Revenue is flat." "Revenue is flat."
                "Revenue is flat." "Revenue is flat."
                (fun s => eq_refl) eq_refl
                (world_ok_answers _ _ _) (world_ok_answers _ _ _)
                (world_ok_answers _ _ _) (world_ok_answers _ _ _)
                (world_ok_answers _ _ _)) as H.
  cbv zeta in H.
  change (pressed "secret" sales_file)
    with (pressed (String "s"%char "ecret") sales_file).
  rewrite H. split; reflexivity.
Defined.

Lemma X8_witness :
  answered world_empty_body init "secret" "Hello" empty_response /\
  status_code empty_response = 200 /\
  fst (call_gemini_api world_empty_body "secret" "Hello" init) = Raise KeyError.
Proof.
  split; [reflexivity|]. split; [reflexivity|].
  destruct (X8_malformed_answer_raises world_empty_body "secret" "Hello" init
              empty_response eq_refl eq_refl) as (_ & _ & _ & Hkey & _).
  apply (Hkey ∅); [reflexivity | apply lookup_empty].
Defined.

Lemma X9_witness :
  fst (run world_empty_body (pressed "secret" sales_file)) = Raise KeyError /\
  calls (snd (run world_empty_body (pressed "secret" sales_file))) = 1%nat.
Proof.
  epose proof (X9_exception_in_stage_1_aborts_the_run world_empty_body "s"%char
                 "ecret" sales_file (frame_ab []) _ KeyError) as H.
  cbv zeta in H.
  specialize (H (fun s => eq_refl) eq_refl).
  change (pressed "secret" sales_file)
    with (pressed (String "s"%char "ecret") sales_file).
  rewrite H; [split; reflexivity|]. vm_compute. reflexivity.
Defined.

Lemma X10_witness :
  status_code failed_response <> 200 /\
  fst (stage3 world_stage1_fails "secret" 3 6 init) = Val (PNone, 4) /\
  writes (log (snd (stage3 world_stage1_fails "secret" 3 6 init))) = [PNone].
Proof.
  assert (Hne : status_code failed_response <> 200) by discriminate.
  split; [exact Hne|].
  pose proof (X10_refused_stage_shows_error_and_None world_stage1_fails "secret"
                6 init failed_response Hne) as H.
  cbv zeta in H. destruct H as (_ & _ & H3 & _).
  rewrite (H3 3 eq_refl). split; reflexivity.
Defined.

Lemma X11_witness :
  fst (run world_stage1_fails (pressed "secret" sales_file)) = Raise TypeError.
Proof.
  change (pressed "secret" sales_file)
    with (pressed (String "s"%char "ecret") sales_file).
  erewrite (X11_result_that_is_no_string_ends_the_run world_stage1_fails
              "s"%char "ecret" sales_file (frame_ab []));
    [reflexivity | intros s; reflexivity | vm_compute; reflexivity | reflexivity].
Defined.
